(** * Data_pre_processing: GeoTIFF / ground-truth extraction pipeline

    A shallow embedding of [MLMODELPY/Data_pre_processing.py].

    - Python [float] and numpy [float64] values are IEEE-754 binary64
      numbers: Rocq's primitive floats ([PrimFloat]).
    - Python [int] values (pixel indices, raster dimensions, integer
      raster samples) are [Z].
    - Exceptions are an error type; a function that can raise returns a
      [result].
    - The libraries the script calls ([affine], [rasterio], [numpy],
      [pandas]) are embedded by the few operations the script uses, with
      the arithmetic these libraries perform. *)

From Stdlib Require Import ZArith List String Bool Floats Lia.
From stdpp Require Import base strings gmap.
Import ListNotations.

Set Warnings "-inexact-float".
#[local] Open Scope string_scope.
#[local] Open Scope list_scope.
#[local] Open Scope Z_scope.

(* ================================================================== *)
(** ** Python: exceptions, floats, [round] *)

Module Py.

(** The exceptions that the script and the library calls it makes can
    raise. *)
Inductive exn : Type :=
| ValueError                    (* round(nan); pd.concat([]) *)
| OverflowError                 (* round(inf) *)
| IndexError                    (* band or pixel index out of range *)
| KeyError                      (* missing DataFrame column *)
| AttributeError                (* dataset.crs is None *)
| TransformNotInvertibleError   (* ~transform on a degenerate transform *)
| RasterioIOError               (* rasterio.open failed *)
| ReadCsvError.                 (* pd.read_csv failed *)

Inductive result (A : Type) : Type :=
| Ok (a : A)
| Raise (e : exn).
#[global] Arguments Ok {A} a.
#[global] Arguments Raise {A} e.

Definition bind {A B : Type} (m : result A) (k : A -> result B) : result B :=
  match m with
  | Ok a => k a
  | Raise e => Raise e
  end.

(** [try: m except e: handler] *)
Definition try_except {A : Type} (m : result A) (is_caught : exn -> bool)
    (handler : result A) : result A :=
  match m with
  | Ok a => Ok a
  | Raise e => if is_caught e then handler else Raise e
  end.

Definition is_IndexError (e : exn) : bool :=
  match e with IndexError => true | _ => false end.

(** [for x in l: out.append(f x)], stopping at the first exception. *)
Fixpoint for_each {A B : Type} (f : A -> result B) (l : list A)
    : result (list B) :=
  match l with
  | [] => Ok []
  | x :: l' =>
      bind (f x) (fun y => bind (for_each f l') (fun ys => Ok (y :: ys)))
  end.

(** Conversion of an [int] to a [float]: the nearest binary64 number,
    ties to even. *)
Definition float_of_int (z : Z) : float :=
  SF2Prim (binary_normalize prec emax z 0 false).

(** The integer nearest to [m * 2^e] (for [m >= 0]), ties to even. *)
Definition round_half_even (m e : Z) : Z :=
  if 0 <=? e then m * 2 ^ e
  else
    let d := 2 ^ (- e) in
    let q := m / d in
    match 2 * (m mod d) ?= d with
    | Lt => q
    | Gt => q + 1
    | Eq => if Z.even q then q else q + 1
    end.

(** [round(x)] for a float [x]: an [int], ties to even; [ValueError] on
    a NaN and [OverflowError] on an infinity. *)
Definition round (x : float) : result Z :=
  match Prim2SF x with
  | S754_nan => Raise ValueError
  | S754_infinity _ => Raise OverflowError
  | S754_zero _ => Ok 0
  | S754_finite s m e =>
      Ok (if s then - round_half_even (Zpos m) e
          else round_half_even (Zpos m) e)
  end.

End Py.
Import Py.

Declare Scope py_scope.
Delimit Scope py_scope with py.
Notation "x <- m ;; k" := (Py.bind m (fun x => k))
  (at level 100, m at next level, right associativity) : py_scope.
#[local] Open Scope py_scope.

(* ================================================================== *)
(** ** The [affine] library: 2-D affine transforms *)

Module Affine.

(** [Affine(a, b, c, d, e, f)]: the matrix
    [[a b c] [d e f] [0 0 1]]. *)
Record t : Type := make { a : float; b : float; c : float;
                          d : float; e : float; f : float }.

(** [Affine.scale(s)] *)
Definition scale (s : float) : t := make s 0 0 0 s 0.

(** [self * other] for two transforms *)
Definition mul (s o : t) : t :=
  make (a s * a o + b s * d o)%float
       (a s * b o + b s * e o)%float
       (a s * c o + b s * f o + c s)%float
       (d s * a o + e s * d o)%float
       (d s * b o + e s * e o)%float
       (d s * c o + e s * f o + f s)%float.

(** [self * (vx, vy)] for a point *)
Definition apply (s : t) (p : float * float) : float * float :=
  let '(vx, vy) := p in
  (vx * a s + vy * b s + c s, vx * d s + vy * e s + f s)%float.

Definition determinant (s : t) : float := (a s * e s - b s * d s)%float.

Definition is_degenerate (s : t) : bool := (determinant s =? 0)%float.

(** [~self] *)
Definition invert (s : t) : result t :=
  if is_degenerate s then Raise TransformNotInvertibleError
  else
    let idet := (1 / determinant s)%float in
    let ra := (e s * idet)%float in
    let rb := (- b s * idet)%float in
    let rd := (- d s * idet)%float in
    let re := (a s * idet)%float in
    Ok (make ra rb (- c s * ra - f s * rb)%float
          rd re (- c s * rd - f s * re)%float).

End Affine.

(* ================================================================== *)
(** ** [numpy] arrays and [rasterio] datasets *)

Module Numpy.

(** A 2-D array: a list of rows. *)
Definition ndarray2 : Type := list (list Z).

(** An index [i] into an axis of length [n]: negative indices count
    from the end, anything else out of range is an [IndexError]. *)
Definition axis_index (i n : Z) : result nat :=
  if (0 <=? i) && (i <? n) then Ok (Z.to_nat i)
  else if (- n <=? i) && (i <? 0) then Ok (Z.to_nat (i + n))
  else Raise IndexError.

(** [arr[r, c]] *)
Definition getitem (arr : ndarray2) (r c : Z) : result Z :=
  i <- axis_index r (Z.of_nat (length arr)) ;;
  match arr !! i with
  | None => Raise IndexError
  | Some row =>
      j <- axis_index c (Z.of_nat (length row)) ;;
      match row !! j with
      | None => Raise IndexError
      | Some v => Ok v
      end
  end.

(** The array has shape [(h, w)]. *)
Definition has_shape (arr : ndarray2) (h w : Z) : Prop :=
  Z.of_nat (length arr) = h /\
  Forall (fun row => Z.of_nat (length row) = w) arr.

End Numpy.

Module Rasterio.

(** An opened raster: its coordinate reference system (if any), its
    pixel-to-world transform, its dimensions and its bands. *)
Record dataset : Type := {
  crs : option string;
  transform : Affine.t;
  width : Z;
  height : Z;
  bands : list Numpy.ndarray2
}.

(** [dataset.read(bidx)]: the band with 1-based index [bidx], full
    frame; a band index the dataset does not have is an
    [IndexError]. *)
Definition read (ds : dataset) (bidx : Z) : result Numpy.ndarray2 :=
  if (1 <=? bidx) && (bidx <=? Z.of_nat (length (bands ds))) then
    match bands ds !! Z.to_nat (bidx - 1) with
    | Some arr => Ok arr
    | None => Raise IndexError
    end
  else Raise IndexError.

(** [dataset.crs.to_string()] *)
Definition crs_to_string (ds : dataset) : result string :=
  match crs ds with
  | Some s => Ok s
  | None => Raise AttributeError
  end.

(** [rasterio.windows.bounds(Window(col_off, row_off, width, height),
    transform)]: [(left, bottom, right, top)]. *)
Definition window_bounds (col_off row_off w h : Z) (tr : Affine.t)
    : float * float * float * float :=
  let row_min := row_off in
  let row_max := row_min + h in
  let col_min := col_off in
  let col_max := col_min + w in
  let '(left_x, bottom_y) :=
    Affine.apply tr (float_of_int col_min, float_of_int row_max) in
  let '(right_x, top_y) :=
    Affine.apply tr (float_of_int col_max, float_of_int row_min) in
  (left_x, bottom_y, right_x, top_y).

(** What [rasterio] guarantees of a dataset it opened: every band read
    full frame has shape [(height, width)]. *)
Definition well_formed (ds : dataset) : Prop :=
  Forall (fun arr => Numpy.has_shape arr (height ds) (width ds)) (bands ds).

End Rasterio.

(* ================================================================== *)
(** ** Tables *)

(** A cell of a table read by [pd.read_csv]: an integer, a float or a
    string. A missing value is the float NaN. *)
Inductive cell : Type :=
| CInt (z : Z)
| CFloat (x : float)
| CStr (s : string).

(** [pd.isna] on a cell *)
Definition isna (v : cell) : bool :=
  match v with
  | CFloat x => is_nan x
  | _ => false
  end.

Module GT.
(** A row of a ground-truth table, as [iterrows] yields it. *)
Record row : Type := {
  Longitude : float;
  Latitude : float;
  Chlorophyll : cell;
  Plant_health : cell
}.
End GT.

Module Sample.
(** A row of the training table; [chan] is the type of the three
    channel columns (raster samples before normalisation, floats
    after). *)
Record t (chan : Type) : Type := make {
  Date : string;
  Pixel_Row : Z;
  Pixel_Col : Z;
  Red : chan;
  Green : chan;
  Blue : chan;
  Chlorophyll : cell;
  Plant_Health : cell
}.
#[global] Arguments make {chan}.
#[global] Arguments Date {chan}.
#[global] Arguments Pixel_Row {chan}.
#[global] Arguments Pixel_Col {chan}.
#[global] Arguments Red {chan}.
#[global] Arguments Green {chan}.
#[global] Arguments Blue {chan}.
#[global] Arguments Chlorophyll {chan}.
#[global] Arguments Plant_Health {chan}.
End Sample.

(** A [DataFrame] of training rows. Built from a list of dicts, it has
    the eight columns exactly when it has a row. *)
Abbreviation DataFrame chan := (list (Sample.t chan)).

(* ================================================================== *)
(** ** Files *)

(** The files of a run: a raster; a ground-truth table with its four
    columns; the training table the script saves; a table with the
    columns [Longitude] and [Latitude] that lacks a label column. *)
Inductive file : Type :=
| GeoTIFF (ds : Rasterio.dataset)
| GroundTruthCsv (rows : list GT.row)
| TrainingCsv (rows : DataFrame float)
| CoordinatesCsv (points : list (float * float)).

(** A table as [pd.read_csv] returns it, by the columns the script
    accesses: a ground-truth table with the columns [Longitude],
    [Latitude], [Chlorophyll] and [Plant health]; a table with the two
    coordinate columns that lacks a label column; a table that lacks a
    coordinate column. *)
Inductive csv_table : Type :=
| Labelled (rows : list GT.row)
| Unlabelled (points : list (float * float))
| NoCoordinates.

(** [rasterio.open(path)] *)
Definition rasterio_open (fs : gmap string file) (path : string)
    : result Rasterio.dataset :=
  match fs !! path with
  | Some (GeoTIFF ds) => Ok ds
  | _ => Raise RasterioIOError
  end.

(** [pd.read_csv(path)]: any table file is read; the table the script
    saves has no coordinate column. *)
Definition read_csv (fs : gmap string file) (path : string)
    : result csv_table :=
  match fs !! path with
  | Some (GroundTruthCsv rows) => Ok (Labelled rows)
  | Some (CoordinatesCsv points) => Ok (Unlabelled points)
  | Some (TrainingCsv _) => Ok NoCoordinates
  | _ => Raise ReadCsvError
  end.

(* ================================================================== *)
(** ** The script *)

(** [adjust_transform_for_zoom(transform, zoom_factor)] *)
Definition adjust_transform_for_zoom (transform : Affine.t)
    (zoom_factor : float) : Affine.t :=
  if (zoom_factor =? 1)%float then transform
  else Affine.mul transform (Affine.scale zoom_factor).

(** What one iteration of the loop over the ground-truth rows does:
    append a record to [training_data], or print one of three messages
    and go on. *)
Inductive outcome : Type :=
| Appended (record : Sample.t Z)
| OutOfBoundsUTM (utm_x utm_y : float)
| OutOfBoundsPixel (pixel_row pixel_col : Z)
| IndexErrorAt (pixel_row pixel_col : Z).

(** The records appended to [training_data], in order. *)
Fixpoint appended (os : list outcome) : DataFrame Z :=
  match os with
  | [] => []
  | Appended record :: os' => record :: appended os'
  | _ :: os' => appended os'
  end.

(** [adjusted_bounds[0] <= utm_x <= adjusted_bounds[2] and
     adjusted_bounds[1] <= utm_y <= adjusted_bounds[3]] *)
Definition within_bounds (adjusted_bounds : float * float * float * float)
    (utm_x utm_y : float) : bool :=
  let '(b0, b1, b2, b3) := adjusted_bounds in
  (b0 <=? utm_x)%float && (utm_x <=? b2)%float &&
  ((b1 <=? utm_y)%float && (utm_y <=? b3)%float).

(** [pixel_row, pixel_col = ~transform * (utm_x, utm_y)] followed by
    [int(round(.))] of each. *)
Definition utm_to_pixel (transform : Affine.t) (utm_x utm_y : float)
    : result (Z * Z) :=
  inverse <- Affine.invert transform ;;
  let '(pixel_row, pixel_col) := Affine.apply inverse (utm_x, utm_y) in
  pixel_row <- Py.round pixel_row ;;
  pixel_col <- Py.round pixel_col ;;
  Ok (pixel_row, pixel_col).

(** [0 <= pixel_row < dataset.height and 0 <= pixel_col < dataset.width] *)
Definition within_dimensions (dataset : Rasterio.dataset)
    (pixel_row pixel_col : Z) : bool :=
  (0 <=? pixel_row) && (pixel_row <? Rasterio.height dataset) &&
  ((0 <=? pixel_col) && (pixel_col <? Rasterio.width dataset)).

(** The three reads inside the [try]. *)
Definition read_rgb (dataset : Rasterio.dataset) (pixel_row pixel_col : Z)
    : result (Z * Z * Z) :=
  band1 <- Rasterio.read dataset 1 ;;
  red <- Numpy.getitem band1 pixel_row pixel_col ;;
  band2 <- Rasterio.read dataset 2 ;;
  green <- Numpy.getitem band2 pixel_row pixel_col ;;
  band3 <- Rasterio.read dataset 3 ;;
  blue <- Numpy.getitem band3 pixel_row pixel_col ;;
  Ok (red, green, blue).

(** The body of [for _, row in gt_data.iterrows()]; [utm] is the row's
    [(UTM_X, UTM_Y)]. *)
Definition loop_body (dataset : Rasterio.dataset) (transform : Affine.t)
    (adjusted_bounds : float * float * float * float) (date : string)
    (row : GT.row) (utm : float * float) : result outcome :=
  let '(utm_x, utm_y) := utm in
  if negb (within_bounds adjusted_bounds utm_x utm_y) then
    Ok (OutOfBoundsUTM utm_x utm_y)
  else
    px <- utm_to_pixel transform utm_x utm_y ;;
    let '(pixel_row, pixel_col) := px in
    if within_dimensions dataset pixel_row pixel_col then
      try_except
        (rgb <- read_rgb dataset pixel_row pixel_col ;;
         let '(red, green, blue) := rgb in
         Ok (Appended (Sample.make date pixel_row pixel_col red green blue
                         (GT.Chlorophyll row) (GT.Plant_health row))))
        is_IndexError
        (Ok (IndexErrorAt pixel_row pixel_col))
    else Ok (OutOfBoundsPixel pixel_row pixel_col).

(** The body of the loop on a row of a table that lacks a label column:
    the same checks and reads, then the access [row['Chlorophyll']] (or
    [row['Plant health']]) in the record being built raises [KeyError],
    which the [except IndexError] does not catch. *)
Definition loop_body_unlabelled (dataset : Rasterio.dataset)
    (transform : Affine.t)
    (adjusted_bounds : float * float * float * float)
    (utm : float * float) : result outcome :=
  let '(utm_x, utm_y) := utm in
  if negb (within_bounds adjusted_bounds utm_x utm_y) then
    Ok (OutOfBoundsUTM utm_x utm_y)
  else
    px <- utm_to_pixel transform utm_x utm_y ;;
    let '(pixel_row, pixel_col) := px in
    if within_dimensions dataset pixel_row pixel_col then
      try_except
        (rgb <- read_rgb dataset pixel_row pixel_col ;;
         Raise KeyError)
        is_IndexError
        (Ok (IndexErrorAt pixel_row pixel_col))
    else Ok (OutOfBoundsPixel pixel_row pixel_col).

(** The dtype of a label column: [int64] when every cell is an integer,
    [float64] when the cells are numbers and one is a float, [object]
    when a cell is a string. *)
Inductive dtype : Type := Int64 | Float64 | Object.

Definition is_str (v : cell) : bool :=
  match v with CStr _ => true | _ => false end.

Definition is_float (v : cell) : bool :=
  match v with CFloat _ => true | _ => false end.

Definition infer_dtype (column : list cell) : dtype :=
  if existsb is_str column then Object
  else if existsb is_float column then Float64
  else Int64.

(** A cell of a column of the given dtype: in a [float64] column an
    integer is the nearest float. *)
Definition astype (d : dtype) (v : cell) : cell :=
  match d, v with
  | Float64, CInt z => CFloat (float_of_int z)
  | _, _ => v
  end.

(** The columns of the concatenated frame have one dtype each. The
    columns [Date], [Pixel Row], [Pixel Col] and the channels have the
    same dtype in every frame; a label column that is [int64] in one
    frame and [float64] in another becomes [float64]. *)
Definition unify_labels {chan : Type} (df : DataFrame chan)
    : DataFrame chan :=
  let chlorophyll := infer_dtype (map Sample.Chlorophyll df) in
  let plant_health := infer_dtype (map Sample.Plant_Health df) in
  map (fun record =>
         Sample.make (Sample.Date record)
           (Sample.Pixel_Row record) (Sample.Pixel_Col record)
           (Sample.Red record) (Sample.Green record) (Sample.Blue record)
           (astype chlorophyll (Sample.Chlorophyll record))
           (astype plant_health (Sample.Plant_Health record)))
      df.

(** [pd.concat(frames, ignore_index=True)]: the rows of the frames in
    order, the columns brought to one dtype each; no frames at all is a
    [ValueError]. A frame without rows has no columns either: it adds
    nothing to the result and takes no part in the dtypes. *)
Definition pd_concat {chan : Type} (frames : list (DataFrame chan))
    : result (DataFrame chan) :=
  match frames with
  | [] => Raise ValueError
  | _ => Ok (unify_labels (concat frames))
  end.

(** [(df['Red'] != 0) & (df['Green'] != 0) & (df['Blue'] != 0)], row by
    row. *)
Definition nonzero_rgb (record : Sample.t Z) : bool :=
  negb (Sample.Red record =? 0) && negb (Sample.Green record =? 0) &&
  negb (Sample.Blue record =? 0).

(** [df[(df['Red'] != 0) & (df['Green'] != 0) & (df['Blue'] != 0)]]; a
    frame without the columns is a [KeyError]. *)
Definition drop_zero_rgb (df : DataFrame Z) : result (DataFrame Z) :=
  match df with
  | [] => Raise KeyError
  | _ => Ok (filter (fun record => nonzero_rgb record = true) df)
  end.

(** [df.dropna(subset=['Plant Health'])] *)
Definition dropna_plant_health {chan : Type} (df : DataFrame chan)
    : DataFrame chan :=
  filter (fun record => isna (Sample.Plant_Health record) = false) df.

(** [v / 255.0] for a raster sample [v] *)
Definition normalize_channel (v : Z) : float := (float_of_int v / 255)%float.

(** [df[['Red', 'Green', 'Blue']] /= 255.0] *)
Definition normalize_rgb (df : DataFrame Z) : DataFrame float :=
  map (fun record =>
         Sample.make (Sample.Date record)
           (Sample.Pixel_Row record) (Sample.Pixel_Col record)
           (normalize_channel (Sample.Red record))
           (normalize_channel (Sample.Green record))
           (normalize_channel (Sample.Blue record))
           (Sample.Chlorophyll record) (Sample.Plant_Health record))
      df.

(** The cleaning steps of the script, applied to the assembled table:
    drop the rows with a zero channel, drop the rows without a plant
    health label, normalise the channels. *)
Definition clean (assembled : DataFrame Z) : result (DataFrame float) :=
  nonzero <- drop_zero_rgb assembled ;;
  Ok (normalize_rgb (dropna_plant_health nonzero)).

(** The pixel mapping as the specification words it: the inverse of the
    transform takes a world point to the fractional pixel; the row is
    the vertical component (the one computed from [f] and [Y] for a
    north-up transform), the column the horizontal one, and each is
    rounded to the nearest integer. *)
Definition spec_pixel_mapping (transform : Affine.t) (utm_x utm_y : float)
    : result (Z * Z) :=
  inverse <- Affine.invert transform ;;
  let '(col, row) := Affine.apply inverse (utm_x, utm_y) in
  pixel_row <- Py.round row ;;
  pixel_col <- Py.round col ;;
  Ok (pixel_row, pixel_col).

Definition wgs84_crs : string := "EPSG:4326".

Section Pipeline.

(** [Transformer.from_crs(src, dst, always_xy=True).transform(x, y)]
    of [pyproj], which works point by point. *)
Variable transformer_transform :
  string -> string -> float -> float -> float * float.

(** [os.path.join] *)
Variable os_path_join : string -> string -> string.

(** The state of the file system the run reads from. *)
Variable fs : gmap string file.

(** The loop [for _, row in gt_data.iterrows()], after the columns
    [UTM_X] and [UTM_Y] were computed from [Longitude] and [Latitude]:
    the outcome of every iteration, in table order. *)
Definition iterrows_loop (dataset : Rasterio.dataset)
    (transform : Affine.t)
    (adjusted_bounds : float * float * float * float)
    (date geotiff_crs : string) (gt_data : list GT.row)
    : result (list outcome) :=
  for_each
    (fun row =>
       loop_body dataset transform adjusted_bounds date row
         (transformer_transform wgs84_crs geotiff_crs
            (GT.Longitude row) (GT.Latitude row)))
    gt_data.

(** The adjusted transform and the adjusted bounds that
    [process_geotiff_and_gt] computes for a dataset. *)
Definition adjusted_transform (dataset : Rasterio.dataset)
    (zoom_factor : float) : Affine.t :=
  adjust_transform_for_zoom (Rasterio.transform dataset) zoom_factor.

Definition adjusted_bounds (dataset : Rasterio.dataset)
    (zoom_factor : float) : float * float * float * float :=
  Rasterio.window_bounds 0 0 (Rasterio.width dataset)
    (Rasterio.height dataset) (adjusted_transform dataset zoom_factor).

(** The projected coordinate [(UTM_X, UTM_Y)] of a ground-truth row. *)
Definition projected (geotiff_crs : string) (row : GT.row) : float * float :=
  transformer_transform wgs84_crs geotiff_crs
    (GT.Longitude row) (GT.Latitude row).

(** The records that a sequence of ground-truth rows contributes to
    the table of one date. *)
Definition records_of (dataset : Rasterio.dataset) (zoom_factor : float)
    (date geotiff_crs : string) (gt_data : list GT.row)
    : result (DataFrame Z) :=
  outcomes <-
    iterrows_loop dataset (adjusted_transform dataset zoom_factor)
      (adjusted_bounds dataset zoom_factor) date geotiff_crs gt_data ;;
  Ok (appended outcomes).

(** [process_geotiff_and_gt] up to the end of the loop. The columns
    [UTM_X] and [UTM_Y] are computed from [Longitude] and [Latitude]
    after the CRS of the raster is read: a table without a coordinate
    column is a [KeyError] there. *)
Definition process_rows (geotiff_file gt_csv_file date : string)
    (zoom_factor : float) : result (list outcome) :=
  dataset <- rasterio_open fs geotiff_file ;;
  let transform :=
    adjust_transform_for_zoom (Rasterio.transform dataset) zoom_factor in
  let adjusted_bounds :=
    Rasterio.window_bounds 0 0 (Rasterio.width dataset)
      (Rasterio.height dataset) transform in
  gt_data <- read_csv fs gt_csv_file ;;
  geotiff_crs <- Rasterio.crs_to_string dataset ;;
  match gt_data with
  | NoCoordinates => Raise KeyError
  | Labelled rows =>
      iterrows_loop dataset transform adjusted_bounds date geotiff_crs rows
  | Unlabelled points =>
      for_each
        (fun point =>
           loop_body_unlabelled dataset transform adjusted_bounds
             (transformer_transform wgs84_crs geotiff_crs
                (fst point) (snd point)))
        points
  end.

(** [process_geotiff_and_gt(geotiff_file, gt_csv_file, date,
    zoom_factor)]: the frame of the records appended. The label cells
    of the records come from one column each of the ground-truth
    table, read with one dtype. *)
Definition process_geotiff_and_gt (geotiff_file gt_csv_file date : string)
    (zoom_factor : float) : result (DataFrame Z) :=
  outcomes <- process_rows geotiff_file gt_csv_file date zoom_factor ;;
  Ok (appended outcomes).

(** The per-date call of [create_training_dataset]. *)
Definition process_date (geotiff_dir gt_csv_dir : string)
    (zoom_factor : float) (date : string) : result (DataFrame Z) :=
  let geotiff_file := os_path_join geotiff_dir (date +:+ ".tif") in
  let gt_csv_file := os_path_join gt_csv_dir (date +:+ ".csv") in
  process_geotiff_and_gt geotiff_file gt_csv_file date zoom_factor.

(** [create_training_dataset(geotiff_dir, gt_csv_dir, dates,
    zoom_factor)] *)
Definition create_training_dataset (geotiff_dir gt_csv_dir : string)
    (dates : list string) (zoom_factor : float) : result (DataFrame Z) :=
  combined_data <-
    for_each (process_date geotiff_dir gt_csv_dir zoom_factor) dates ;;
  pd_concat combined_data.

(** The table the script builds, cleans and saves: [training_dataset]
    at the point of [to_csv]. *)
Definition training_dataset (geotiff_directory gt_csv_directory : string)
    (dates_to_process : list string) (zoom_factor : float)
    : result (DataFrame float) :=
  assembled <-
    create_training_dataset geotiff_directory gt_csv_directory
      dates_to_process zoom_factor ;;
  clean assembled.

End Pipeline.

(** The constants of the script. Its two input directories are absolute
    paths of the author's machine; they are parameters of [run_script]
    below. *)
Definition dates_to_process : list string :=
  ["09.20.2024"; "10.04.2024"; "10.11.2024"].
Definition zoom_factor : float := 1.001%float.
Definition output_path : string := "Training.Data/cleaned_training_data.csv".

(** A run of the script up to [to_csv]: the table saved, and the file
    system after the run. A run that raises saves nothing. *)
Definition run_script
    (transformer_transform : string -> string -> float -> float -> float * float)
    (os_path_join : string -> string -> string)
    (geotiff_directory gt_csv_directory : string)
    (fs : gmap string file) : result (DataFrame float) * gmap string file :=
  match training_dataset transformer_transform os_path_join fs
          geotiff_directory gt_csv_directory dates_to_process zoom_factor with
  | Ok table => (Ok table, <[output_path := TrainingCsv table]> fs)
  | Raise e => (Raise e, fs)
  end.

(** The debugging statistics the script prints after saving the table:
    [training_dataset['Pixel Col'].isna().sum()], [total_points],
    [valid_points], [out_of_bounds_points] and the percentage
    [valid_points / total_points * 100]. The column [Pixel Col] holds
    the integers [int(round(.))] produced. *)
Definition pixel_col_isna_sum (df : DataFrame float) : Z :=
  Z.of_nat
    (length (filter (fun record => isna (CInt (Sample.Pixel_Col record)) = true)
               df)).

Definition valid_points (df : DataFrame float) : Z := Z.of_nat (length df).

Definition total_points (df : DataFrame float) : Z :=
  Z.of_nat (length df) + pixel_col_isna_sum df.

Definition out_of_bounds_points (df : DataFrame float) : Z :=
  total_points df - valid_points df.

Definition valid_percentage (df : DataFrame float) : float :=
  (float_of_int (valid_points df) / float_of_int (total_points df) * 100)%float.

(* ================================================================== *)
(** ** Predicates of the specification *)

(** A raw channel value that is a valid 8-bit sample. *)
Definition eight_bit (v : Z) : Prop := 0 <= v <= 255.

(** The three raw channel values of a record are 8-bit samples. *)
Definition eight_bit_rgb (record : Sample.t Z) : Prop :=
  eight_bit (Sample.Red record) /\ eight_bit (Sample.Green record) /\
  eight_bit (Sample.Blue record).

(** Every sample of every band of the raster is an 8-bit sample. *)
Definition eight_bit_raster (dataset : Rasterio.dataset) : Prop :=
  Forall (Forall (Forall eight_bit)) (Rasterio.bands dataset).

(** A normalised channel value lies in the closed interval [0, 1]. *)
Definition in_unit_interval (x : float) : bool :=
  ((0 <=? x) && (x <=? 1))%float.

(** The three channel values of a cleaned record lie in [0, 1]. *)
Definition rgb_in_unit_interval (record : Sample.t float) : Prop :=
  in_unit_interval (Sample.Red record) = true /\
  in_unit_interval (Sample.Green record) = true /\
  in_unit_interval (Sample.Blue record) = true.

(** No channel value of a cleaned record equals zero, and its plant
    health label is present. *)
Definition clean_record (record : Sample.t float) : Prop :=
  (Sample.Red record =? 0)%float = false /\
  (Sample.Green record =? 0)%float = false /\
  (Sample.Blue record =? 0)%float = false /\
  isna (Sample.Plant_Health record) = false.

(** A record of the assembled table that the cleaning steps keep. *)
Definition kept (record : Sample.t Z) : Prop :=
  nonzero_rgb record = true /\ isna (Sample.Plant_Health record) = false.

(** A label cell of a per-date table and the cell of the assembled
    table in its place: the same cell, or the float nearest to its
    integer when the column became [float64]. *)
Definition upcast (v w : cell) : Prop :=
  w = v \/ exists z, v = CInt z /\ w = CFloat (float_of_int z).

(** A row of a per-date table and the row of the assembled table in its
    place: the same date, pixel and channel values, and the label
    cells of the row in the dtype of their column. *)
Definition same_row (record row : Sample.t Z) : Prop :=
  Sample.Date row = Sample.Date record /\
  Sample.Pixel_Row row = Sample.Pixel_Row record /\
  Sample.Pixel_Col row = Sample.Pixel_Col record /\
  Sample.Red row = Sample.Red record /\
  Sample.Green row = Sample.Green record /\
  Sample.Blue row = Sample.Blue record /\
  upcast (Sample.Chlorophyll record) (Sample.Chlorophyll row) /\
  upcast (Sample.Plant_Health record) (Sample.Plant_Health row).

(** The label fields of a ground-truth row and of a record. *)
Definition row_labels (row : GT.row) : cell * cell :=
  (GT.Chlorophyll row, GT.Plant_health row).

Definition record_labels {chan : Type} (record : Sample.t chan) : cell * cell :=
  (Sample.Chlorophyll record, Sample.Plant_Health record).

(** The record was appended by the iteration of the loop on [row], whose
    projected coordinate is [utm]: the row passed the bounds check and
    the dimension check, and the record holds the date, the rounded
    pixel, the three samples read there and the labels of the row. *)
Definition extracted_from (dataset : Rasterio.dataset) (transform : Affine.t)
    (bounds : float * float * float * float) (date : string)
    (row : GT.row) (utm : float * float) (record : Sample.t Z) : Prop :=
  Sample.Date record = date /\
  record_labels record = row_labels row /\
  within_bounds bounds (fst utm) (snd utm) = true /\
  utm_to_pixel transform (fst utm) (snd utm) =
    Ok (Sample.Pixel_Row record, Sample.Pixel_Col record) /\
  within_dimensions dataset (Sample.Pixel_Row record)
    (Sample.Pixel_Col record) = true /\
  read_rgb dataset (Sample.Pixel_Row record) (Sample.Pixel_Col record) =
    Ok (Sample.Red record, Sample.Green record, Sample.Blue record).

(** [v] is the sample at row [r] and column [c] of the band of the
    raster at position [i] of its band list (band [i + 1] of the
    file). *)
Definition band_sample (dataset : Rasterio.dataset) (i : nat) (r c v : Z)
    : Prop :=
  exists arr line,
    Rasterio.bands dataset !! i = Some arr /\
    arr !! Z.to_nat r = Some line /\
    line !! Z.to_nat c = Some v.

(** What a record of the table of a date holds, in terms of the raster
    and of the ground-truth row alone: the date and the two labels of
    the row; a projected coordinate inside the closed bounds; as
    [Pixel Row] and [Pixel Col] the rounded first and second component
    of the image of the coordinate under the inverse of the transform;
    a pixel inside the dimensions; and as channel values the samples of
    the first three bands at row [Pixel Row] and column [Pixel Col]. *)
Definition sampled_from (dataset : Rasterio.dataset) (transform : Affine.t)
    (bounds : float * float * float * float) (date : string)
    (row : GT.row) (utm : float * float) (record : Sample.t Z) : Prop :=
  Sample.Date record = date /\
  Sample.Chlorophyll record = GT.Chlorophyll row /\
  Sample.Plant_Health record = GT.Plant_health row /\
  (let '(min_x, min_y, max_x, max_y) := bounds in
   (min_x <=? fst utm)%float = true /\ (fst utm <=? max_x)%float = true /\
   (min_y <=? snd utm)%float = true /\ (snd utm <=? max_y)%float = true) /\
  (exists inverse,
     Affine.invert transform = Ok inverse /\
     Py.round (fst (Affine.apply inverse utm)) =
       Ok (Sample.Pixel_Row record) /\
     Py.round (snd (Affine.apply inverse utm)) =
       Ok (Sample.Pixel_Col record)) /\
  0 <= Sample.Pixel_Row record < Rasterio.height dataset /\
  0 <= Sample.Pixel_Col record < Rasterio.width dataset /\
  band_sample dataset 0 (Sample.Pixel_Row record) (Sample.Pixel_Col record)
    (Sample.Red record) /\
  band_sample dataset 1 (Sample.Pixel_Row record) (Sample.Pixel_Col record)
    (Sample.Green record) /\
  band_sample dataset 2 (Sample.Pixel_Row record) (Sample.Pixel_Col record)
    (Sample.Blue record).

(** The row passes the bounds check of the extractor. *)
Definition row_within_bounds
    (transformer_transform : string -> string -> float -> float -> float * float)
    (dataset : Rasterio.dataset) (zoom_factor : float) (geotiff_crs : string)
    (row : GT.row) : bool :=
  let '(utm_x, utm_y) := projected transformer_transform geotiff_crs row in
  within_bounds (adjusted_bounds dataset zoom_factor) utm_x utm_y.

(* ================================================================== *)
(** ** A concrete scenario *)

Module Scenario.

(** [posixpath.join(a, b)] *)
Definition posixpath_join (a b : string) : string :=
  if String.prefix "/" b then b
  else if (String.eqb a "" || String.eqb (substring (String.length a - 1) 1 a) "/")%bool
       then a +:+ b
       else a +:+ "/" +:+ b.

(** A reprojection that leaves the coordinates as they are. *)
Definition same_crs (_ _ : string) (x y : float) : float * float := (x, y).

Definition indices (n : nat) : list Z := map Z.of_nat (seq 0 n).

(** Band [k] of a raster of [h] rows and [w] columns, with the sample
    [40 * k + 10 * r + c] at row [r] and column [c]. *)
Definition band (h w : nat) (k : Z) : Numpy.ndarray2 :=
  map (fun r => map (fun c => 40 * k + 10 * r + c) (indices w)) (indices h).

(** North-up transform of a raster with one world unit per pixel whose
    top edge is at y = 10. *)
Definition north_up : Affine.t := Affine.make 1 0 0 0 (-1) 10.

(** A 10x10 RGB raster that covers the world rectangle (0,0)-(10,10). *)
Definition raster : Rasterio.dataset :=
  {| Rasterio.crs := Some "EPSG:32611";
     Rasterio.transform := north_up;
     Rasterio.width := 10;
     Rasterio.height := 10;
     Rasterio.bands := [band 10 10 1; band 10 10 2; band 10 10 3] |}.

Definition gt_row (x y : float) (label : string) : GT.row :=
  {| GT.Longitude := x; GT.Latitude := y;
     GT.Chlorophyll := CFloat 41.5; GT.Plant_health := CStr label |}.

Definition gt_table : list GT.row :=
  [gt_row 5.4 5.4 "healthy"; gt_row (-1) (-1) "stressed";
   gt_row 2 7 "healthy"].

(** A raster of 10 rows and 20 columns that covers (0,0)-(20,10). *)
Definition wide_raster : Rasterio.dataset :=
  {| Rasterio.crs := Some "EPSG:32611";
     Rasterio.transform := north_up;
     Rasterio.width := 20;
     Rasterio.height := 10;
     Rasterio.bands := [band 10 20 1; band 10 20 2; band 10 20 3] |}.

Definition files (date : string) (ds : Rasterio.dataset)
    (rows : list GT.row) : gmap string file :=
  {[ posixpath_join "tif" (date +:+ ".tif") := GeoTIFF ds;
     posixpath_join "gt" (date +:+ ".csv") := GroundTruthCsv rows ]}.

(** The files of one date: the 10x10 raster and the three-row table. *)
Definition fs1 : gmap string file := files "d1" raster gt_table.

(** The files of two dates. *)
Definition fs2 : gmap string file :=
  files "d1" raster gt_table ∪ files "d2" raster [gt_row 2 7 "stressed"].

(** The per-date table of a date of [fs2]. *)
Definition table (date : string) : DataFrame Z :=
  match process_date same_crs posixpath_join fs2 "tif" "gt" 1 date with
  | Ok per_date => per_date
  | Raise _ => []
  end.

(** An assembled table with a record to keep, a record with a zero
    channel and a record without a plant health label. *)
Definition assembled : DataFrame Z :=
  [Sample.make "d1" 5 5 95 135 175 (CFloat 41.5) (CStr "healthy");
   Sample.make "d1" 0 0 0 80 120 (CFloat 40.25) (CStr "stressed");
   Sample.make "d2" 2 3 63 103 143 (CFloat 39) (CFloat nan)].

End Scenario.

(** Rasters and files for the edge cases. *)
Module Edge.

(** A raster with a single band. *)
Definition grayscale : Rasterio.dataset :=
  {| Rasterio.crs := Some "EPSG:32611";
     Rasterio.transform := Scenario.north_up;
     Rasterio.width := 10;
     Rasterio.height := 10;
     Rasterio.bands := [Scenario.band 10 10 1] |}.

(** A raster whose transform maps every pixel to the point (5, 5). *)
Definition collapsed : Rasterio.dataset :=
  {| Rasterio.crs := Some "EPSG:32611";
     Rasterio.transform := Affine.make 0 0 5 0 0 5;
     Rasterio.width := 10;
     Rasterio.height := 10;
     Rasterio.bands := Rasterio.bands Scenario.raster |}.

(** A raster whose rows run from south to north. *)
Definition south_up : Rasterio.dataset :=
  {| Rasterio.crs := Some "EPSG:32611";
     Rasterio.transform := Affine.make 1 0 0 0 1 0;
     Rasterio.width := 10;
     Rasterio.height := 10;
     Rasterio.bands := Rasterio.bands Scenario.raster |}.

(** The 10x10 raster with one ground-truth row on its right edge. *)
Definition fs_edge : gmap string file :=
  Scenario.files "d1" Scenario.raster
    [Scenario.gt_row 5.4 5.4 "healthy"; Scenario.gt_row 10 5 "stressed"].

(** A date whose only ground-truth row is outside the raster. *)
Definition fs_outside : gmap string file :=
  Scenario.files "d1" Scenario.raster [Scenario.gt_row (-1) (-1) "stressed"].

(** Two dates, the ground-truth table of the second is missing. *)
Definition fs_missing : gmap string file :=
  Scenario.fs1 ∪ {[ "tif/d2.tif" := GeoTIFF Scenario.raster ]}.

(** The single-band raster with the three-row table. *)
Definition fs_grayscale : gmap string file :=
  Scenario.files "d1" grayscale Scenario.gt_table.

(** Two dates: the chlorophyll column of the first table holds
    integers, that of the second floats. *)
Definition fs_mixed : gmap string file :=
  Scenario.files "d1" Scenario.raster
    [{| GT.Longitude := 5.4; GT.Latitude := 5.4;
        GT.Chlorophyll := CInt 39; GT.Plant_health := CStr "healthy" |};
     {| GT.Longitude := 2; GT.Latitude := 7;
        GT.Chlorophyll := CInt 9007199254740993;
        GT.Plant_health := CStr "stressed" |}]
  ∪ Scenario.files "d2" Scenario.raster [Scenario.gt_row 2 7 "stressed"].

(** The per-date table of a date of [fs_mixed]. *)
Definition mixed_table (date : string) : DataFrame Z :=
  match process_date Scenario.same_crs Scenario.posixpath_join fs_mixed
          "tif" "gt" 1 date with
  | Ok per_date => per_date
  | Raise _ => []
  end.

(** A raster without a coordinate reference system. *)
Definition no_crs : Rasterio.dataset :=
  {| Rasterio.crs := None;
     Rasterio.transform := Scenario.north_up;
     Rasterio.width := 10;
     Rasterio.height := 10;
     Rasterio.bands := Rasterio.bands Scenario.raster |}.

(** A ground-truth table that lacks the label columns, and one that
    lacks the coordinate columns. *)
Definition fs_unlabelled : gmap string file :=
  {[ "tif/d1.tif" := GeoTIFF Scenario.raster;
     "gt/d1.csv" :=
       CoordinatesCsv [(-1, -1); (5.4, 5.4); (2, 7)]%float ]}.

Definition fs_no_coordinates : gmap string file :=
  {[ "tif/d1.tif" := GeoTIFF Scenario.raster;
     "gt/d1.csv" := TrainingCsv [] ]}.

(** A cleaned table of two records. *)
Definition cleaned : DataFrame float :=
  [Sample.make "d1" 5 5 0.5 0.25 1 (CFloat 41.5) (CStr "healthy");
   Sample.make "d2" 2 3 0.125 0.5 0.75 (CFloat 39) (CStr "stressed")]%float.

End Edge.

(* ================================================================== *)
(** ** Properties of the embedded library operations *)

Lemma bind_Ok_inv {A B : Type} (m : result A) (k : A -> result B) (b : B) :
  Py.bind m k = Ok b -> exists a, m = Ok a /\ k a = Ok b.
Proof. destruct m as [a|e]; simpl; [eauto | discriminate]. Qed.

Lemma for_each_app {A B : Type} (f : A -> result B) (l1 l2 : list A) :
  for_each f (l1 ++ l2) =
  (xs <- for_each f l1 ;; ys <- for_each f l2 ;; Ok (xs ++ ys)).
Proof.
  induction l1 as [|x l1 IH]; simpl.
  - destruct (for_each f l2); reflexivity.
  - destruct (f x) as [y|e]; simpl; [|reflexivity].
    rewrite IH. destruct (for_each f l1) as [xs|e]; simpl; [|reflexivity].
    destruct (for_each f l2); reflexivity.
Qed.

Lemma for_each_ext {A B : Type} (f g : A -> result B) (l : list A) :
  Forall (fun x => f x = g x) l -> for_each f l = for_each g l.
Proof.
  induction 1 as [|x l Hx _ IH]; simpl; [reflexivity|].
  rewrite Hx, IH. reflexivity.
Qed.

Lemma for_each_Forall2 {A B : Type} (f : A -> result B) (l : list A)
    (ys : list B) :
  for_each f l = Ok ys <-> Forall2 (fun x y => f x = Ok y) l ys.
Proof.
  revert ys. induction l as [|x l IH]; intros ys; simpl.
  - split.
    + intros [= <-]. constructor.
    + intros H. inversion H. reflexivity.
  - split.
    + intros H. apply bind_Ok_inv in H as (y & Hy & H).
      apply bind_Ok_inv in H as (ys' & Hys & [= <-]).
      constructor; [exact Hy | apply IH, Hys].
    + intros H. inversion H as [|? y ? ys' Hy Hys]; subst.
      rewrite Hy. simpl. apply IH in Hys. rewrite Hys. reflexivity.
Qed.

Lemma appended_app (os1 os2 : list outcome) :
  appended (os1 ++ os2) = appended os1 ++ appended os2.
Proof.
  induction os1 as [|o os1 IH]; simpl; [reflexivity|].
  destruct o; simpl; rewrite IH; reflexivity.
Qed.

Lemma axis_index_in_range (i n : Z) :
  0 <= i < n -> Numpy.axis_index i n = Ok (Z.to_nat i).
Proof.
  intros [H0 Hn]. unfold Numpy.axis_index.
  destruct (Z.leb_spec 0 i); [|lia].
  destruct (Z.ltb_spec i n); [|lia]. reflexivity.
Qed.

(** Indexing an array of shape [(h, w)] inside its shape succeeds. *)
Lemma getitem_in_shape (arr : Numpy.ndarray2) (h w r c : Z) :
  Numpy.has_shape arr h w -> 0 <= r < h -> 0 <= c < w ->
  exists v, Numpy.getitem arr r c = Ok v.
Proof.
  intros [Hh Hw] Hr Hc. unfold Numpy.getitem.
  rewrite axis_index_in_range by lia. simpl.
  destruct (arr !! Z.to_nat r) as [row|] eqn:Hrow.
  - assert (Hlen : Z.of_nat (length row) = w).
    { rewrite Forall_forall in Hw. apply Hw.
      eapply list_elem_of_lookup_2. exact Hrow. }
    rewrite axis_index_in_range by lia. simpl.
    destruct (row !! Z.to_nat c) as [v|] eqn:Hv; [eauto|].
    apply lookup_ge_None in Hv. lia.
  - apply lookup_ge_None in Hrow. lia.
Qed.

(** A dataset with at least three bands has bands 1, 2 and 3. *)
Lemma read_band (ds : Rasterio.dataset) (bidx : Z) :
  1 <= bidx <= Z.of_nat (length (Rasterio.bands ds)) ->
  exists arr, Rasterio.read ds bidx = Ok arr /\ arr ∈ Rasterio.bands ds.
Proof.
  intros H. unfold Rasterio.read.
  destruct (Z.leb_spec 1 bidx); [|lia].
  destruct (Z.leb_spec bidx (Z.of_nat (length (Rasterio.bands ds)))); [|lia].
  simpl.
  destruct (Rasterio.bands ds !! Z.to_nat (bidx - 1)) as [arr|] eqn:Harr.
  - exists arr. split; [reflexivity|].
    eapply list_elem_of_lookup_2. exact Harr.
  - apply lookup_ge_None in Harr. lia.
Qed.

Lemma within_dimensions_spec (ds : Rasterio.dataset) (r c : Z) :
  within_dimensions ds r c = true <->
  0 <= r < Rasterio.height ds /\ 0 <= c < Rasterio.width ds.
Proof. unfold within_dimensions. lia. Qed.

(** The three reads succeed on a well-formed dataset with three bands,
    at a pixel inside its dimensions. *)
Lemma read_rgb_succeeds (ds : Rasterio.dataset) (r c : Z) :
  Rasterio.well_formed ds -> 3 <= Z.of_nat (length (Rasterio.bands ds)) ->
  within_dimensions ds r c = true ->
  exists red green blue, read_rgb ds r c = Ok (red, green, blue).
Proof.
  intros Hwf Hn Hdim. apply within_dimensions_spec in Hdim as [Hr Hc].
  unfold Rasterio.well_formed in Hwf. rewrite Forall_forall in Hwf.
  unfold read_rgb.
  destruct (read_band ds 1) as (b1 & -> & Hb1); [lia|]; cbn [Py.bind].
  destruct (getitem_in_shape b1 _ _ r c (Hwf _ Hb1) Hr Hc) as (red & ->); cbn [Py.bind].
  destruct (read_band ds 2) as (b2 & -> & Hb2); [lia|]; cbn [Py.bind].
  destruct (getitem_in_shape b2 _ _ r c (Hwf _ Hb2) Hr Hc) as (green & ->); cbn [Py.bind].
  destruct (read_band ds 3) as (b3 & -> & Hb3); [lia|]; cbn [Py.bind].
  destruct (getitem_in_shape b3 _ _ r c (Hwf _ Hb3) Hr Hc) as (blue & ->); cbn [Py.bind].
  simpl. eauto.
Qed.

(** A point strictly inside the bounds passes the bounds check. *)
Lemma strictly_inside_within_bounds
    (min_x min_y max_x max_y utm_x utm_y : float) :
  ((min_x <? utm_x) && (utm_x <? max_x) &&
   ((min_y <? utm_y) && (utm_y <? max_y)))%float = true ->
  within_bounds (min_x, min_y, max_x, max_y) utm_x utm_y = true.
Proof.
  assert (Hle : forall x y : float, (x <? y)%float = true ->
                                    (x <=? y)%float = true).
  { intros x y. rewrite FloatAxioms.ltb_spec, FloatAxioms.leb_spec.
    unfold SFltb, SFleb. destruct (SFcompare _ _) as [[]|]; congruence. }
  unfold within_bounds. intros H.
  apply andb_prop in H as [Hx Hy].
  apply andb_prop in Hx as [Hx1 Hx2]. apply andb_prop in Hy as [Hy1 Hy2].
  rewrite !Hle by assumption. reflexivity.
Qed.

Lemma within_bounds_false (min_x min_y max_x max_y utm_x utm_y : float) :
  within_bounds (min_x, min_y, max_x, max_y) utm_x utm_y = false <->
  ((min_x <=? utm_x)%float && (utm_x <=? max_x)%float = false \/
   (min_y <=? utm_y)%float && (utm_y <=? max_y)%float = false).
Proof. unfold within_bounds. apply andb_false_iff. Qed.

(* ================================================================== *)
(** ** Properties of the pipeline *)

Section PipelineProperties.

Variable transformer_transform :
  string -> string -> float -> float -> float * float.
Variable os_path_join : string -> string -> string.

Lemma process_geotiff_and_gt_opened (fs : gmap string file)
    (geotiff_file gt_csv_file date : string) (zoom_factor : float)
    (dataset : Rasterio.dataset) (geotiff_crs : string)
    (gt_data : list GT.row) :
  fs !! geotiff_file = Some (GeoTIFF dataset) ->
  fs !! gt_csv_file = Some (GroundTruthCsv gt_data) ->
  Rasterio.crs dataset = Some geotiff_crs ->
  process_geotiff_and_gt transformer_transform fs
    geotiff_file gt_csv_file date zoom_factor =
  records_of transformer_transform dataset zoom_factor date geotiff_crs
    gt_data.
Proof.
  intros Htif Hcsv Hcrs.
  unfold process_geotiff_and_gt, process_rows, rasterio_open, read_csv,
    Rasterio.crs_to_string, records_of.
  rewrite Htif. cbn [Py.bind]. rewrite Hcsv. cbn [Py.bind].
  rewrite Hcrs. reflexivity.
Qed.

(** The table of a date when one row's iteration has a known outcome. *)
Lemma records_of_split (dataset : Rasterio.dataset) (zoom_factor : float)
    (date geotiff_crs : string) (before after : list GT.row)
    (row : GT.row) (o : outcome) :
  loop_body dataset (adjusted_transform dataset zoom_factor)
    (adjusted_bounds dataset zoom_factor) date row
    (projected transformer_transform geotiff_crs row) = Ok o ->
  records_of transformer_transform dataset zoom_factor date geotiff_crs (before ++ row :: after) =
  (records_before <- records_of transformer_transform dataset zoom_factor date geotiff_crs before ;;
   records_after <- records_of transformer_transform dataset zoom_factor date geotiff_crs after ;;
   Ok (records_before ++ appended [o] ++ records_after)).
Proof.
  intros Ho. unfold records_of, iterrows_loop.
  rewrite for_each_app. cbn [for_each].
  fold (projected transformer_transform geotiff_crs row). rewrite Ho. cbn [Py.bind].
  destruct (for_each _ before) as [os1|e]; cbn [Py.bind]; [|reflexivity].
  destruct (for_each _ after) as [os2|e]; cbn [Py.bind]; [|reflexivity].
  rewrite appended_app.
  change (o :: os2) with ([o] ++ os2). rewrite appended_app. reflexivity.
Qed.

(** C3: a ground-truth row whose projected X lies outside
    [min-x, max-x] or whose projected Y lies outside [min-y, max-y] of
    the adjusted bounds is skipped: its iteration prints the
    out-of-bounds message and appends nothing, and the table that
    [process_geotiff_and_gt] returns consists of the records of the
    rows before it followed by the records of the rows after it. *)
Theorem out_of_bounds_row_is_skipped (fs : gmap string file)
    (geotiff_file gt_csv_file date : string) (zoom_factor : float)
    (dataset : Rasterio.dataset) (geotiff_crs : string)
    (before after : list GT.row) (row : GT.row)
    (min_x min_y max_x max_y utm_x utm_y : float) :
  fs !! geotiff_file = Some (GeoTIFF dataset) ->
  fs !! gt_csv_file = Some (GroundTruthCsv (before ++ row :: after)) ->
  Rasterio.crs dataset = Some geotiff_crs ->
  adjusted_bounds dataset zoom_factor = (min_x, min_y, max_x, max_y) ->
  projected transformer_transform geotiff_crs row = (utm_x, utm_y) ->
  ((min_x <=? utm_x)%float && (utm_x <=? max_x)%float = false \/
   (min_y <=? utm_y)%float && (utm_y <=? max_y)%float = false) ->
  loop_body dataset (adjusted_transform dataset zoom_factor)
    (adjusted_bounds dataset zoom_factor) date row (utm_x, utm_y) =
    Ok (OutOfBoundsUTM utm_x utm_y) /\
  process_geotiff_and_gt transformer_transform fs
    geotiff_file gt_csv_file date zoom_factor =
  (records_before <- records_of transformer_transform dataset zoom_factor date geotiff_crs before ;;
   records_after <- records_of transformer_transform dataset zoom_factor date geotiff_crs after ;;
   Ok (records_before ++ records_after)).
Proof.
  intros Htif Hcsv Hcrs Hbounds Hutm Hout.
  apply within_bounds_false in Hout. rewrite <- Hbounds in Hout.
  assert (Hbody :
    loop_body dataset (adjusted_transform dataset zoom_factor)
      (adjusted_bounds dataset zoom_factor) date row (utm_x, utm_y) =
    Ok (OutOfBoundsUTM utm_x utm_y)).
  { unfold loop_body. rewrite Hout. reflexivity. }
  split; [exact Hbody|].
  rewrite (process_geotiff_and_gt_opened _ _ _ _ _ _ _ _ Htif Hcsv Hcrs).
  rewrite (records_of_split _ _ _ _ _ _ _ (OutOfBoundsUTM utm_x utm_y));
    [reflexivity | rewrite Hutm; exact Hbody].
Qed.

(** C9: at a pixel that passes the dimension check (row in
    [0, height), col in [0, width)), indexing each full-frame band
    array of shape (height, width) succeeds; so, on a raster with its
    three channel bands, the three reads inside the [try] succeed and
    no iteration of the loop ends in the branch that catches the index
    failure. *)
Theorem index_error_branch_unreachable (dataset : Rasterio.dataset)
    (pixel_row pixel_col : Z) :
  Rasterio.well_formed dataset ->
  3 <= Z.of_nat (length (Rasterio.bands dataset)) ->
  within_dimensions dataset pixel_row pixel_col = true ->
  (forall arr, arr ∈ Rasterio.bands dataset ->
     exists v, Numpy.getitem arr pixel_row pixel_col = Ok v) /\
  (exists red green blue,
     read_rgb dataset pixel_row pixel_col = Ok (red, green, blue)) /\
  (forall transform bounds date row utm r c,
     loop_body dataset transform bounds date row utm <>
     Ok (IndexErrorAt r c)).
Proof.
  intros Hwf Hbands Hdim. split; [|split].
  - intros arr Harr. apply within_dimensions_spec in Hdim as [Hr Hc].
    unfold Rasterio.well_formed in Hwf. rewrite Forall_forall in Hwf.
    exact (getitem_in_shape arr _ _ _ _ (Hwf _ Harr) Hr Hc).
  - apply read_rgb_succeeds; assumption.
  - intros transform bounds date row [utm_x utm_y] r c.
    unfold loop_body.
    destruct (negb (within_bounds bounds utm_x utm_y)); [discriminate|].
    destruct (utm_to_pixel transform utm_x utm_y) as [[r' c']|e];
      cbn [Py.bind]; [|discriminate].
    destruct (within_dimensions dataset r' c') eqn:Hdim'; [|discriminate].
    destruct (read_rgb_succeeds dataset r' c' Hwf Hbands Hdim')
      as (red & green & blue & ->).
    discriminate.
Qed.

(** A ground-truth row whose projected coordinate lies inside the
    adjusted bounds and whose pixel as the script computes it (the
    first component of the inverse image as the row, the second as the
    column) lies inside the raster's dimensions yields exactly one
    record: its iteration appends one record that carries the date
    label, that pixel, the three samples read at it and the row's
    Chlorophyll and Plant health fields unchanged, and the table that
    [process_geotiff_and_gt] returns has this record between the
    records of the rows before it and those of the rows after it. *)
Lemma script_pixel_emits_one_record (fs : gmap string file)
    (geotiff_file gt_csv_file date : string) (zoom_factor : float)
    (dataset : Rasterio.dataset) (geotiff_crs : string)
    (before after : list GT.row) (row : GT.row)
    (utm_x utm_y : float) (pixel_row pixel_col : Z) :
  fs !! geotiff_file = Some (GeoTIFF dataset) ->
  fs !! gt_csv_file = Some (GroundTruthCsv (before ++ row :: after)) ->
  Rasterio.crs dataset = Some geotiff_crs ->
  Rasterio.well_formed dataset ->
  3 <= Z.of_nat (length (Rasterio.bands dataset)) ->
  projected transformer_transform geotiff_crs row = (utm_x, utm_y) ->
  within_bounds (adjusted_bounds dataset zoom_factor) utm_x utm_y = true ->
  utm_to_pixel (adjusted_transform dataset zoom_factor) utm_x utm_y =
    Ok (pixel_row, pixel_col) ->
  0 <= pixel_row < Rasterio.height dataset ->
  0 <= pixel_col < Rasterio.width dataset ->
  exists red green blue,
    let record :=
      Sample.make date pixel_row pixel_col red green blue
        (GT.Chlorophyll row) (GT.Plant_health row) in
    read_rgb dataset pixel_row pixel_col = Ok (red, green, blue) /\
    loop_body dataset (adjusted_transform dataset zoom_factor)
      (adjusted_bounds dataset zoom_factor) date row (utm_x, utm_y) =
      Ok (Appended record) /\
    process_geotiff_and_gt transformer_transform fs
      geotiff_file gt_csv_file date zoom_factor =
    (records_before <-
       records_of transformer_transform dataset zoom_factor date
         geotiff_crs before ;;
     records_after <-
       records_of transformer_transform dataset zoom_factor date
         geotiff_crs after ;;
     Ok (records_before ++ record :: records_after)).
Proof.
  intros Htif Hcsv Hcrs Hwf Hbands Hutm Hin Hpx Hr Hc.
  assert (Hdim : within_dimensions dataset pixel_row pixel_col = true)
    by (apply within_dimensions_spec; split; assumption).
  destruct (read_rgb_succeeds dataset pixel_row pixel_col Hwf Hbands Hdim)
    as (red & green & blue & Hrgb).
  exists red, green, blue. cbv zeta.
  assert (Hbody :
    loop_body dataset (adjusted_transform dataset zoom_factor)
      (adjusted_bounds dataset zoom_factor) date row (utm_x, utm_y) =
    Ok (Appended (Sample.make date pixel_row pixel_col red green blue
                    (GT.Chlorophyll row) (GT.Plant_health row)))).
  { unfold loop_body. rewrite Hin. cbn [negb]. rewrite Hpx. cbn [Py.bind].
    rewrite Hdim, Hrgb. reflexivity. }
  split; [exact Hrgb|]. split; [exact Hbody|].
  rewrite (process_geotiff_and_gt_opened _ _ _ _ _ _ _ _ Htif Hcsv Hcrs).
  rewrite (records_of_split _ _ _ _ _ _ _ _ (eq_trans (f_equal _ Hutm) Hbody)).
  reflexivity.
Qed.

End PipelineProperties.

Section AssemblerProperties.

Variable transformer_transform :
  string -> string -> float -> float -> float * float.
Variable os_path_join : string -> string -> string.

Lemma loop_body_date (dataset : Rasterio.dataset) (transform : Affine.t)
    (bounds : float * float * float * float) (date : string)
    (row : GT.row) (utm : float * float) (record : Sample.t Z) :
  loop_body dataset transform bounds date row utm = Ok (Appended record) ->
  Sample.Date record = date.
Proof.
  destruct utm as [utm_x utm_y]. unfold loop_body.
  destruct (negb (within_bounds bounds utm_x utm_y)); [discriminate|].
  destruct (utm_to_pixel transform utm_x utm_y) as [[r c]|e];
    cbn [Py.bind]; [|discriminate].
  destruct (within_dimensions dataset r c); [|discriminate].
  destruct (read_rgb dataset r c) as [[[red green] blue]|e]; cbn.
  - intros [= <-]. reflexivity.
  - destruct (is_IndexError e); discriminate.
Qed.

(** On a table that lacks a label column no iteration appends a
    record. *)
Lemma loop_body_unlabelled_appends_nothing (dataset : Rasterio.dataset)
    (transform : Affine.t) (bounds : float * float * float * float)
    (utm : float * float) (o : outcome) :
  loop_body_unlabelled dataset transform bounds utm = Ok o ->
  appended [o] = [].
Proof.
  destruct utm as [utm_x utm_y]. unfold loop_body_unlabelled.
  destruct (negb (within_bounds bounds utm_x utm_y));
    [intros [= <-]; reflexivity|].
  destruct (utm_to_pixel transform utm_x utm_y) as [[r c]|e];
    cbn [Py.bind]; [|discriminate].
  destruct (within_dimensions dataset r c); [|intros [= <-]; reflexivity].
  destruct (read_rgb dataset r c) as [[[red green] blue]|e]; cbn.
  - discriminate.
  - destruct (is_IndexError e); [intros [= <-]; reflexivity|discriminate].
Qed.

Lemma for_each_unlabelled_appends_nothing {A : Type}
    (dataset : Rasterio.dataset) (transform : Affine.t)
    (bounds : float * float * float * float) (utm : A -> float * float)
    (points : list A) (outcomes : list outcome) :
  for_each (fun point =>
              loop_body_unlabelled dataset transform bounds (utm point))
    points = Ok outcomes ->
  appended outcomes = [].
Proof.
  intros H. apply for_each_Forall2 in H.
  induction H as [|point o points outcomes Ho _ IH]; [reflexivity|].
  change (o :: outcomes) with ([o] ++ outcomes). rewrite appended_app, IH.
  rewrite (loop_body_unlabelled_appends_nothing _ _ _ _ _ Ho). reflexivity.
Qed.

(** The table of a date, when there is one, is the table of the rows of
    a labelled ground-truth file, or empty for a file that lacks a label
    column. *)
Lemma process_geotiff_and_gt_Ok_inv (fs : gmap string file)
    (geotiff_file gt_csv_file date : string) (zoom_factor : float)
    (table : DataFrame Z) :
  process_geotiff_and_gt transformer_transform fs geotiff_file gt_csv_file
    date zoom_factor = Ok table ->
  exists dataset geotiff_crs,
    fs !! geotiff_file = Some (GeoTIFF dataset) /\
    Rasterio.crs dataset = Some geotiff_crs /\
    ((exists gt_data,
        fs !! gt_csv_file = Some (GroundTruthCsv gt_data) /\
        records_of transformer_transform dataset zoom_factor date
          geotiff_crs gt_data = Ok table) \/
     (exists points,
        fs !! gt_csv_file = Some (CoordinatesCsv points) /\ table = [])).
Proof.
  unfold process_geotiff_and_gt, process_rows, rasterio_open, read_csv,
    Rasterio.crs_to_string, records_of.
  intros H.
  destruct (fs !! geotiff_file) as [[dataset| | |]|] eqn:Htif;
    try discriminate.
  cbn [Py.bind] in H. exists dataset.
  destruct (fs !! gt_csv_file) as [[|gt_data| |points]|] eqn:Hcsv;
    try discriminate; cbn [Py.bind] in H;
    destruct (Rasterio.crs dataset) as [geotiff_crs|] eqn:Hcrs;
    try discriminate; cbn [Py.bind] in H; exists geotiff_crs;
    (split; [reflexivity|]); (split; [reflexivity|]).
  - left. exists gt_data. split; [reflexivity|exact H].
  - right. exists points. split; [reflexivity|].
    apply bind_Ok_inv in H as (outcomes & H & [= <-]).
    exact (for_each_unlabelled_appends_nothing _ _ _
             (fun point => transformer_transform wgs84_crs geotiff_crs
                             (fst point) (snd point)) _ _ H).
Qed.

(** Every record of the table of a date carries that date. *)
Lemma process_geotiff_and_gt_dates (fs : gmap string file)
    (geotiff_file gt_csv_file date : string) (zoom_factor : float)
    (table : DataFrame Z) :
  process_geotiff_and_gt transformer_transform fs geotiff_file gt_csv_file
    date zoom_factor = Ok table ->
  Forall (fun record => Sample.Date record = date) table.
Proof.
  intros H. apply process_geotiff_and_gt_Ok_inv in H
    as (dataset & geotiff_crs & _ & _ &
        [(gt_data & _ & H) | (points & _ & ->)]); [|constructor].
  unfold records_of in H.
  apply bind_Ok_inv in H as (outcomes & H & [= <-]).
  unfold iterrows_loop in H. apply for_each_Forall2 in H.
  induction H as [|row o gt_data outcomes Ho _ IH]; [constructor|].
  destruct o; simpl; try exact IH.
  constructor; [|exact IH]. eapply loop_body_date, Ho.
Qed.

(** C10: for an empty date list the assembler does not return an empty
    table: the concatenation of zero per-date tables raises
    [ValueError]. *)
Theorem create_training_dataset_no_dates (fs : gmap string file)
    (geotiff_dir gt_csv_dir : string) (zoom_factor : float) :
  create_training_dataset transformer_transform os_path_join fs
    geotiff_dir gt_csv_dir [] zoom_factor = Raise ValueError.
Proof. reflexivity. Qed.

(** The assembled table has the rows of the concatenation, one for
    one. *)
Lemma astype_upcast (d : dtype) (v : cell) : upcast v (astype d v).
Proof.
  destruct d, v; cbn; try (left; reflexivity).
  right. eexists. split; reflexivity.
Qed.

Lemma unify_labels_same_row (df : DataFrame Z) :
  Forall2 same_row df (unify_labels df).
Proof.
  unfold unify_labels.
  generalize (infer_dtype (map Sample.Chlorophyll df)) as chlorophyll.
  generalize (infer_dtype (map Sample.Plant_Health df)) as plant_health.
  intros plant_health chlorophyll.
  induction df as [|record df IH]; cbn [map]; constructor; [|exact IH].
  unfold same_row. cbn. repeat (split; [reflexivity|]).
  split; apply astype_upcast.
Qed.

Lemma unify_labels_length {chan : Type} (df : DataFrame chan) :
  length (unify_labels df) = length df.
Proof. unfold unify_labels. apply length_map. Qed.

Lemma unify_labels_Date {chan : Type} (df : DataFrame chan) :
  map Sample.Date (unify_labels df) = map Sample.Date df.
Proof.
  unfold unify_labels. rewrite map_map. apply map_ext. reflexivity.
Qed.

(** A table whose label columns hold no integer, or only integers, is
    left as it is. *)
Lemma unify_labels_no_int {chan : Type} (df : DataFrame chan) :
  Forall (fun record =>
            (forall z, Sample.Chlorophyll record <> CInt z) /\
            (forall z, Sample.Plant_Health record <> CInt z)) df ->
  unify_labels df = df.
Proof.
  unfold unify_labels.
  generalize (infer_dtype (map Sample.Chlorophyll df)) as chlorophyll.
  generalize (infer_dtype (map Sample.Plant_Health df)) as plant_health.
  intros plant_health chlorophyll.
  induction 1 as [|record df [Hc Hp] _ IH]; cbn [map]; [reflexivity|].
  rewrite IH. f_equal. destruct record as [d r c red green blue ch ph].
  cbn in *. f_equal.
  - destruct chlorophyll, ch; try reflexivity. destruct (Hc z eq_refl).
  - destruct plant_health, ph; try reflexivity. destruct (Hp z eq_refl).
Qed.

(** The assembler returns a table only for a non-empty date list every
    date of which is processed, and the table is then the
    concatenation of the per-date tables, its label columns brought to
    one dtype each. *)
Lemma create_training_dataset_Ok_inv (fs : gmap string file)
    (geotiff_dir gt_csv_dir : string) (dates : list string)
    (zoom_factor : float) (table : DataFrame Z) :
  create_training_dataset transformer_transform os_path_join fs
    geotiff_dir gt_csv_dir dates zoom_factor = Ok table ->
  dates <> [] /\
  exists tables,
    Forall2
      (fun date per_date =>
         process_date transformer_transform os_path_join fs
           geotiff_dir gt_csv_dir zoom_factor date = Ok per_date)
      dates tables /\
    table = unify_labels (concat tables).
Proof.
  unfold create_training_dataset. intros H.
  apply bind_Ok_inv in H as (tables & Htables & Hconcat).
  apply for_each_Forall2 in Htables.
  destruct tables as [|t tables]; [discriminate|].
  injection Hconcat as <-. split.
  - intros ->. inversion Htables.
  - exists (t :: tables). split; [exact Htables | reflexivity].
Qed.

(** The Date column and the length of a concatenation of per-date
    tables. *)
Lemma concat_tables_dates (fs : gmap string file)
    (geotiff_dir gt_csv_dir : string) (dates : list string)
    (zoom_factor : float) (tables : list (DataFrame Z)) :
  Forall2
    (fun date per_date =>
       process_date transformer_transform os_path_join fs
         geotiff_dir gt_csv_dir zoom_factor date = Ok per_date)
    dates tables ->
  map Sample.Date (concat tables) =
    concat (zip_with (fun date per_date => replicate (length per_date) date)
              dates tables) /\
  length (concat tables) = sum_list (map length tables).
Proof.
  intros Htables. split.
  - induction Htables as [|date t dates tables Ht _ IH]; [reflexivity|].
    cbn [concat zip_with]. rewrite map_app, IH. f_equal.
    apply process_geotiff_and_gt_dates in Ht.
    clear -Ht. induction Ht as [|record t Hd _ IHt]; [reflexivity|].
    cbn. rewrite Hd, IHt. reflexivity.
  - clear. induction tables as [|t tables IH]; [reflexivity|].
    cbn. rewrite length_app, IH. reflexivity.
Qed.

(** C6: for every input date list, the assembler returns a table exactly
    when the list is not empty and every date of it is processed, and
    the table is then the concatenation of the per-date tables in the
    order of the list, the rows of each table in their order, with each
    label column brought to one dtype. Row for row the table is the
    concatenation: the same date, pixel and channel values, and the
    same label cells, an integer label being its float where the column
    became a float column. No date is dropped or introduced: the Date
    column of the result is, date by date in input order, the date
    repeated once per row of its table. No record is removed as a
    duplicate: the result has as many rows as the per-date tables
    together. *)
Theorem create_training_dataset_concatenates (fs : gmap string file)
    (geotiff_dir gt_csv_dir : string) (dates : list string)
    (zoom_factor : float) :
  (forall table,
     create_training_dataset transformer_transform os_path_join fs
       geotiff_dir gt_csv_dir dates zoom_factor = Ok table <->
     dates <> [] /\
     exists tables,
       Forall2
         (fun date per_date =>
            process_date transformer_transform os_path_join fs
              geotiff_dir gt_csv_dir zoom_factor date = Ok per_date)
         dates tables /\
       table = unify_labels (concat tables)) /\
  (forall tables,
     Forall2
       (fun date per_date =>
          process_date transformer_transform os_path_join fs
            geotiff_dir gt_csv_dir zoom_factor date = Ok per_date)
       dates tables ->
     Forall2 same_row (concat tables) (unify_labels (concat tables)) /\
     map Sample.Date (unify_labels (concat tables)) =
       concat (zip_with (fun date per_date => replicate (length per_date) date)
                 dates tables) /\
     length (unify_labels (concat tables)) = sum_list (map length tables)).
Proof.
  split.
  - intros table. split; [apply create_training_dataset_Ok_inv|].
    intros (Hne & tables & Htables & ->).
    unfold create_training_dataset.
    pose proof Htables as Hrun. apply for_each_Forall2 in Hrun as ->.
    cbn [Py.bind].
    destruct Htables; [congruence | reflexivity].
  - intros tables Htables.
    split; [apply unify_labels_same_row|].
    rewrite unify_labels_Date, unify_labels_length.
    exact (concat_tables_dates _ _ _ _ _ _ Htables).
Qed.

End AssemblerProperties.

Section FilesRead.

Variable transformer_transform :
  string -> string -> float -> float -> float * float.
Variable os_path_join : string -> string -> string.

(** The extractor reads the file system at its two paths only. *)
Lemma process_geotiff_and_gt_reads (fs1 fs2 : gmap string file)
    (geotiff_file gt_csv_file date : string) (zoom_factor : float) :
  fs1 !! geotiff_file = fs2 !! geotiff_file ->
  fs1 !! gt_csv_file = fs2 !! gt_csv_file ->
  process_geotiff_and_gt transformer_transform fs1 geotiff_file gt_csv_file
    date zoom_factor =
  process_geotiff_and_gt transformer_transform fs2 geotiff_file gt_csv_file
    date zoom_factor.
Proof.
  intros Htif Hcsv.
  unfold process_geotiff_and_gt, process_rows, rasterio_open, read_csv.
  rewrite Htif, Hcsv. reflexivity.
Qed.

(** The assembler reads the file system at the raster and
    ground-truth paths of the listed dates only. *)
Lemma create_training_dataset_reads (fs1 fs2 : gmap string file)
    (geotiff_dir gt_csv_dir : string) (dates : list string)
    (zoom_factor : float) :
  Forall
    (fun date =>
       fs1 !! os_path_join geotiff_dir (date +:+ ".tif") =
       fs2 !! os_path_join geotiff_dir (date +:+ ".tif") /\
       fs1 !! os_path_join gt_csv_dir (date +:+ ".csv") =
       fs2 !! os_path_join gt_csv_dir (date +:+ ".csv"))
    dates ->
  create_training_dataset transformer_transform os_path_join fs1
    geotiff_dir gt_csv_dir dates zoom_factor =
  create_training_dataset transformer_transform os_path_join fs2
    geotiff_dir gt_csv_dir dates zoom_factor.
Proof.
  intros Hsame. unfold create_training_dataset.
  rewrite (for_each_ext
             (process_date transformer_transform os_path_join fs1
                geotiff_dir gt_csv_dir zoom_factor)
             (process_date transformer_transform os_path_join fs2
                geotiff_dir gt_csv_dir zoom_factor) dates);
    [reflexivity|].
  eapply Forall_impl; [exact Hsame|].
  intros date [Htif Hcsv]. unfold process_date.
  apply process_geotiff_and_gt_reads; assumption.
Qed.

(** A second run of the script, started from the file system the
    first run left, saves the same table again, provided the script
    does not read the file it writes. *)
Lemma run_script_twice (geotiff_directory gt_csv_directory : string)
    (fs : gmap string file) :
  Forall
    (fun date =>
       os_path_join geotiff_directory (date +:+ ".tif") <> output_path /\
       os_path_join gt_csv_directory (date +:+ ".csv") <> output_path)
    dates_to_process ->
  run_script transformer_transform os_path_join
    geotiff_directory gt_csv_directory
    (run_script transformer_transform os_path_join
       geotiff_directory gt_csv_directory fs).2 =
  run_script transformer_transform os_path_join
    geotiff_directory gt_csv_directory fs.
Proof.
  intros Hpaths. unfold run_script at 2 3.
  destruct (training_dataset _ _ fs _ _ _ _) as [table|e] eqn:Hrun;
    cbn [snd]; unfold run_script.
  - unfold training_dataset in *.
    rewrite (create_training_dataset_reads
               (<[output_path := TrainingCsv table]> fs) fs).
    + rewrite Hrun. rewrite insert_insert_eq. reflexivity.
    + eapply Forall_impl; [exact Hpaths|].
      intros date [Htif Hcsv].
      rewrite !lookup_insert_ne by congruence. split; reflexivity.
  - rewrite Hrun. reflexivity.
Qed.

End FilesRead.

(** C7: with a zoom factor of exactly 1.0 the transform adjuster returns
    the transform it was given. *)
Theorem adjust_transform_for_zoom_identity (transform : Affine.t) :
  adjust_transform_for_zoom transform 1 = transform.
Proof. reflexivity. Qed.

(** Any other zoom factor composes the transform with the scaling. *)
Lemma adjust_transform_for_zoom_scales (transform : Affine.t) (zoom : float) :
  (zoom =? 1)%float = false ->
  adjust_transform_for_zoom transform zoom =
  Affine.mul transform (Affine.scale zoom).
Proof. intros H. unfold adjust_transform_for_zoom. rewrite H. reflexivity. Qed.

Example adjust_transform_for_zoom_2 :
  adjust_transform_for_zoom Scenario.north_up 2 =
  Affine.make 2 0 0 0 (-2) 10.
Proof. vm_compute. reflexivity. Qed.

(** The script's pixel mapping is the specification's with row and
    column exchanged. *)
Lemma utm_to_pixel_swaps (transform : Affine.t) (utm_x utm_y : float)
    (m n : Z) :
  utm_to_pixel transform utm_x utm_y = Ok (m, n) <->
  spec_pixel_mapping transform utm_x utm_y = Ok (n, m).
Proof.
  unfold utm_to_pixel, spec_pixel_mapping.
  destruct (Affine.invert transform) as [inverse|e]; cbn [Py.bind];
    [|split; discriminate].
  destruct (Affine.apply inverse (utm_x, utm_y)) as [u v].
  destruct (Py.round u) as [i|e], (Py.round v) as [j|e']; cbn [Py.bind];
    split; intros H; try discriminate; injection H as <- <-; reflexivity.
Qed.

(** C2: the script's pixel mapping against the specification's, on the
    north-up transform {a=1, b=0, c=0, d=0, e=-1, f=10}. At the world
    point (5.4, 5.4) both give the pixel (row 5, col 5). The script
    takes the first component of the inverse image for the row and the
    second for the column, so at the world point (2, 7), whose pixel is
    row 3 and column 2, the script computes row 2 and column 3; the
    record it emits carries these and the samples read at [2, 3]; and on
    a raster of 10 rows and 20 columns the point (15, 5), whose pixel
    (row 5, col 15) is inside the raster, is dropped as out of range. *)
Theorem pixel_mapping_exchanges_row_and_col :
  utm_to_pixel Scenario.north_up 5.4 5.4 = Ok (5, 5) /\
  spec_pixel_mapping Scenario.north_up 5.4 5.4 = Ok (5, 5) /\
  utm_to_pixel Scenario.north_up 2 7 = Ok (2, 3) /\
  spec_pixel_mapping Scenario.north_up 2 7 = Ok (3, 2) /\
  process_geotiff_and_gt Scenario.same_crs
    (Scenario.files "d1" Scenario.raster [Scenario.gt_row 2 7 "healthy"])
    "tif/d1.tif" "gt/d1.csv" "d1" 1 =
    Ok [Sample.make "d1" 2 3 63 103 143 (CFloat 41.5) (CStr "healthy")] /\
  read_rgb Scenario.raster 3 2 = Ok (72, 112, 152) /\
  spec_pixel_mapping Scenario.north_up 15 5 = Ok (5, 15) /\
  within_dimensions Scenario.wide_raster 5 15 = true /\
  process_rows Scenario.same_crs
    (Scenario.files "d1" Scenario.wide_raster
       [Scenario.gt_row 15 5 "healthy"])
    "tif/d1.tif" "gt/d1.csv" "d1" 1 = Ok [OutOfBoundsPixel 15 5].
Proof. repeat split; vm_compute; reflexivity. Qed.

(** C1: a ground-truth row whose projected coordinate lies inside the
    adjusted bounds and whose rounded pixel (row from the second
    component of the inverse image, column from the first) lies inside
    the raster's dimensions is not always given a record. The script
    takes the components in the other order, so it checks and reports
    the pixel with row and column exchanged: whenever the pixel's
    column is not below the raster's height, or its row not below the
    raster's width, the row is skipped with the pixel out-of-bounds
    message and the returned table consists of the records of the
    other rows. *)
Theorem valid_point_dropped_by_exchanged_pixel
    (transformer_transform : string -> string -> float -> float -> float * float)
    (fs : gmap string file)
    (geotiff_file gt_csv_file date : string) (zoom_factor : float)
    (dataset : Rasterio.dataset) (geotiff_crs : string)
    (before after : list GT.row) (row : GT.row)
    (utm_x utm_y : float) (pixel_row pixel_col : Z) :
  fs !! geotiff_file = Some (GeoTIFF dataset) ->
  fs !! gt_csv_file = Some (GroundTruthCsv (before ++ row :: after)) ->
  Rasterio.crs dataset = Some geotiff_crs ->
  projected transformer_transform geotiff_crs row = (utm_x, utm_y) ->
  within_bounds (adjusted_bounds dataset zoom_factor) utm_x utm_y = true ->
  spec_pixel_mapping (adjusted_transform dataset zoom_factor) utm_x utm_y =
    Ok (pixel_row, pixel_col) ->
  0 <= pixel_row < Rasterio.height dataset ->
  0 <= pixel_col < Rasterio.width dataset ->
  Rasterio.height dataset <= pixel_col \/
  Rasterio.width dataset <= pixel_row ->
  loop_body dataset (adjusted_transform dataset zoom_factor)
    (adjusted_bounds dataset zoom_factor) date row (utm_x, utm_y) =
    Ok (OutOfBoundsPixel pixel_col pixel_row) /\
  process_geotiff_and_gt transformer_transform fs
    geotiff_file gt_csv_file date zoom_factor =
  (records_before <-
     records_of transformer_transform dataset zoom_factor date
       geotiff_crs before ;;
   records_after <-
     records_of transformer_transform dataset zoom_factor date
       geotiff_crs after ;;
   Ok (records_before ++ records_after)).
Proof.
  intros Htif Hcsv Hcrs Hutm Hin Hpx Hr Hc Hout.
  apply utm_to_pixel_swaps in Hpx.
  assert (Hdim : within_dimensions dataset pixel_col pixel_row = false).
  { destruct (within_dimensions dataset pixel_col pixel_row) eqn:Hdim;
      [|reflexivity].
    apply within_dimensions_spec in Hdim. lia. }
  assert (Hbody :
    loop_body dataset (adjusted_transform dataset zoom_factor)
      (adjusted_bounds dataset zoom_factor) date row (utm_x, utm_y) =
    Ok (OutOfBoundsPixel pixel_col pixel_row)).
  { unfold loop_body. rewrite Hin. cbn [negb]. rewrite Hpx. cbn [Py.bind].
    rewrite Hdim. reflexivity. }
  split; [exact Hbody|].
  rewrite (process_geotiff_and_gt_opened _ _ _ _ _ _ _ _ _ Htif Hcsv Hcrs).
  rewrite (records_of_split _ _ _ _ _ _ _ _
             (OutOfBoundsPixel pixel_col pixel_row));
    [reflexivity | rewrite Hutm; exact Hbody].
Qed.

(** Division of an 8-bit sample by 255.0 lands in [0, 1]: checked on
    each of the 256 samples. *)
Lemma normalize_channel_unit_interval (v : Z) :
  eight_bit v -> in_unit_interval (normalize_channel v) = true.
Proof.
  intros Hv.
  assert (Hall : forallb (fun n => in_unit_interval
                                     (normalize_channel (Z.of_nat n)))
                   (seq 0 256) = true) by (vm_compute; reflexivity).
  rewrite forallb_forall in Hall.
  rewrite <- (Z2Nat.id v) by (unfold eight_bit in Hv; lia).
  apply Hall. apply in_seq. unfold eight_bit in Hv. lia.
Qed.

Lemma clean_nonempty (assembled : DataFrame Z) :
  assembled <> [] ->
  clean assembled =
  Ok (normalize_rgb
        (dropna_plant_health
           (filter (fun record => nonzero_rgb record = true) assembled))).
Proof. destruct assembled; [congruence | reflexivity]. Qed.

(** The cleaning steps take 8-bit samples into [0, 1]. *)
Lemma clean_unit_interval (assembled : DataFrame Z)
    (cleaned : DataFrame float) :
  Forall eight_bit_rgb assembled ->
  clean assembled = Ok cleaned ->
  Forall rgb_in_unit_interval cleaned.
Proof.
  intros H8 Hrun. destruct assembled as [|first rest]; [discriminate|].
  rewrite clean_nonempty in Hrun by discriminate. injection Hrun as <-.
  unfold normalize_rgb, dropna_plant_health.
  rewrite Forall_forall. intros record Hrecord.
  apply list_elem_of_fmap in Hrecord as (raw & -> & Hraw).
  apply list_elem_of_filter in Hraw as [_ Hraw].
  apply list_elem_of_filter in Hraw as [_ Hraw].
  rewrite Forall_forall in H8. destruct (H8 raw Hraw) as (Hr & Hg & Hb).
  repeat split; cbn; apply normalize_channel_unit_interval; assumption.
Qed.

(** C5: when the raw channel values of the assembled table are 8-bit
    samples, the cleaning steps return a table, and the three normalised
    channel values of every record it retains lie in [0, 1]. *)
Theorem normalized_channels_in_unit_interval (assembled : DataFrame Z) :
  assembled <> [] ->
  Forall eight_bit_rgb assembled ->
  exists cleaned,
    clean assembled = Ok cleaned /\ Forall rgb_in_unit_interval cleaned.
Proof.
  intros Hne H8. eexists. split; [apply clean_nonempty, Hne|].
  eapply clean_unit_interval; [exact H8 | apply clean_nonempty, Hne].
Qed.

(** A sample read from an array is one of its elements. *)
Lemma getitem_elem (arr : Numpy.ndarray2) (r c v : Z) :
  Numpy.getitem arr r c = Ok v -> exists row, row ∈ arr /\ v ∈ row.
Proof.
  unfold Numpy.getitem. intros H.
  apply bind_Ok_inv in H as (i & _ & H).
  destruct (arr !! i) as [row|] eqn:Hrow; [|discriminate].
  apply bind_Ok_inv in H as (j & _ & H).
  destruct (row !! j) as [v'|] eqn:Hv; [|discriminate].
  injection H as <-. exists row.
  split; eapply list_elem_of_lookup_2; eassumption.
Qed.

Lemma read_elem (dataset : Rasterio.dataset) (bidx : Z)
    (arr : Numpy.ndarray2) :
  Rasterio.read dataset bidx = Ok arr -> arr ∈ Rasterio.bands dataset.
Proof.
  unfold Rasterio.read. destruct (_ && _); [|discriminate].
  destruct (Rasterio.bands dataset !! Z.to_nat (bidx - 1)) as [arr'|] eqn:H;
    [|discriminate].
  intros [= <-]. eapply list_elem_of_lookup_2. exact H.
Qed.

Lemma read_sample_eight_bit (dataset : Rasterio.dataset) (bidx r c : Z)
    (arr : Numpy.ndarray2) (v : Z) :
  eight_bit_raster dataset ->
  Rasterio.read dataset bidx = Ok arr -> Numpy.getitem arr r c = Ok v ->
  eight_bit v.
Proof.
  intros H8 Hread Hget. apply read_elem in Hread.
  apply getitem_elem in Hget as (row & Hrow & Hv).
  unfold eight_bit_raster in H8. rewrite Forall_forall in H8.
  specialize (H8 arr Hread). rewrite Forall_forall in H8.
  specialize (H8 row Hrow). rewrite Forall_forall in H8. exact (H8 v Hv).
Qed.

(** The records extracted from an 8-bit raster have 8-bit channels. *)
Lemma loop_body_eight_bit (dataset : Rasterio.dataset)
    (transform : Affine.t) (bounds : float * float * float * float)
    (date : string) (row : GT.row) (utm : float * float)
    (record : Sample.t Z) :
  eight_bit_raster dataset ->
  loop_body dataset transform bounds date row utm = Ok (Appended record) ->
  eight_bit_rgb record.
Proof.
  intros H8. destruct utm as [utm_x utm_y]. unfold loop_body.
  destruct (negb (within_bounds bounds utm_x utm_y)); [discriminate|].
  destruct (utm_to_pixel transform utm_x utm_y) as [[r c]|e];
    cbn [Py.bind]; [|discriminate].
  destruct (within_dimensions dataset r c); [|discriminate].
  destruct (read_rgb dataset r c) as [[[red green] blue]|e] eqn:Hrgb; cbn.
  - intros [= <-]. unfold read_rgb in Hrgb.
    apply bind_Ok_inv in Hrgb as (band1 & Hb1 & Hrgb).
    apply bind_Ok_inv in Hrgb as (red' & Hred & Hrgb).
    apply bind_Ok_inv in Hrgb as (band2 & Hb2 & Hrgb).
    apply bind_Ok_inv in Hrgb as (green' & Hgreen & Hrgb).
    apply bind_Ok_inv in Hrgb as (band3 & Hb3 & Hrgb).
    apply bind_Ok_inv in Hrgb as (blue' & Hblue & [= <- <- <-]).
    split; [|split]; cbn.
    + exact (read_sample_eight_bit _ _ _ _ _ _ H8 Hb1 Hred).
    + exact (read_sample_eight_bit _ _ _ _ _ _ H8 Hb2 Hgreen).
    + exact (read_sample_eight_bit _ _ _ _ _ _ H8 Hb3 Hblue).
  - destruct (is_IndexError e); discriminate.
Qed.

Lemma unify_labels_eight_bit (df : DataFrame Z) :
  Forall eight_bit_rgb df -> Forall eight_bit_rgb (unify_labels df).
Proof.
  unfold unify_labels. intros H. apply Forall_map.
  eapply Forall_impl; [exact H|]. intros record Hrecord. exact Hrecord.
Qed.

(** End to end: when every raster of the file system is an 8-bit
    raster, the channel values of the table the script saves lie in
    [0, 1]. *)
Lemma training_dataset_unit_interval
    (transformer_transform : string -> string -> float -> float -> float * float)
    (os_path_join : string -> string -> string) (fs : gmap string file)
    (geotiff_dir gt_csv_dir : string) (dates : list string)
    (zoom : float) (cleaned : DataFrame float) :
  (forall path dataset,
     fs !! path = Some (GeoTIFF dataset) -> eight_bit_raster dataset) ->
  training_dataset transformer_transform os_path_join fs
    geotiff_dir gt_csv_dir dates zoom = Ok cleaned ->
  Forall rgb_in_unit_interval cleaned.
Proof.
  intros H8. unfold training_dataset. intros H.
  apply bind_Ok_inv in H as (assembled & Hassembled & H).
  apply (clean_unit_interval assembled); [|exact H].
  apply create_training_dataset_Ok_inv in Hassembled
    as (_ & tables & Htables & ->).
  apply unify_labels_eight_bit, Forall_concat. clear H.
  induction Htables as [|date t dates tables Ht _ IH]; [constructor|].
  constructor; [|exact IH].
  clear IH. unfold process_date in Ht.
  apply process_geotiff_and_gt_Ok_inv in Ht
    as (dataset & geotiff_crs & Hopen & _ &
        [(gt_data & _ & Ht) | (points & _ & ->)]); [|constructor].
  assert (Hds : eight_bit_raster dataset) by (eapply H8, Hopen).
  unfold records_of in Ht.
  apply bind_Ok_inv in Ht as (outcomes & Ht & [= <-]).
  unfold iterrows_loop in Ht. apply for_each_Forall2 in Ht.
  induction Ht as [|row o gt_data outcomes Ho _ IH]; [constructor|].
  destruct o; simpl; try exact IH.
  constructor; [|exact IH]. eapply loop_body_eight_bit; eassumption.
Qed.

(* ================================================================== *)
(** ** Binary64 arithmetic: a non-zero integer divided by 255.0 *)

Module Binary64.

#[local] Open Scope Z_scope.

Lemma digits2_pos_bounds (p : positive) :
  2 ^ (Zpos (digits2_pos p) - 1) <= Zpos p < 2 ^ Zpos (digits2_pos p).
Proof.
  induction p as [p IH|p IH|]; cbn [digits2_pos].
  - rewrite Pos2Z.inj_succ.
    replace (Z.succ (Zpos (digits2_pos p)) - 1)
      with (1 + (Zpos (digits2_pos p) - 1)) by lia.
    unfold Z.succ. rewrite (Z.add_comm _ 1).
    rewrite !Z.pow_add_r by lia. change (2 ^ 1) with 2. lia.
  - rewrite Pos2Z.inj_succ.
    replace (Z.succ (Zpos (digits2_pos p)) - 1)
      with (1 + (Zpos (digits2_pos p) - 1)) by lia.
    unfold Z.succ. rewrite (Z.add_comm _ 1).
    rewrite !Z.pow_add_r by lia. change (2 ^ 1) with 2. lia.
  - cbn. lia.
Qed.

Lemma Zdigits2_bounds (m : Z) :
  0 < m -> 0 < Zdigits2 m /\ 2 ^ (Zdigits2 m - 1) <= m < 2 ^ Zdigits2 m.
Proof.
  destruct m as [|p|p]; try lia. intros _. cbn [Zdigits2].
  split; [lia | apply digits2_pos_bounds].
Qed.

(** The number of binary digits of [m] is the [k] with
    [2^(k-1) <= m < 2^k]. *)
Lemma Zdigits2_unique (m k : Z) :
  0 < k -> 2 ^ (k - 1) <= m < 2 ^ k -> Zdigits2 m = k.
Proof.
  intros Hk [Hlo Hhi].
  assert (Hm : 0 < m) by (pose proof (Z.pow_pos_nonneg 2 (k - 1)); lia).
  destruct (Zdigits2_bounds m Hm) as (Hd & Hdlo & Hdhi).
  destruct (Z.lt_trichotomy (Zdigits2 m) k) as [Hlt|[Heq|Hgt]];
    [exfalso|exact Heq|exfalso].
  - pose proof (Z.pow_le_mono_r 2 (Zdigits2 m) (k - 1)). lia.
  - pose proof (Z.pow_le_mono_r 2 k (Zdigits2 m - 1)). lia.
Qed.

Lemma iter_pos_iter {A : Type} (f : A -> A) (n : positive) (x : A) :
  SpecFloat.iter_pos f n x = Pos.iter f x n.
Proof.
  revert x. induction n as [n IH|n IH|]; intros x; cbn [SpecFloat.iter_pos Pos.iter].
  - rewrite !IH, <- !Pos.iter_swap. reflexivity.
  - rewrite !IH. reflexivity.
  - reflexivity.
Qed.

Lemma shr_1_m (mrs : shr_record) :
  0 <= shr_m mrs -> shr_m (shr_1 mrs) = shr_m mrs / 2.
Proof.
  destruct mrs as [m r s]. cbn [shr_m]. intros Hm. unfold shr_1.
  destruct m as [|[p|p|]|p]; cbn [shr_m]; try lia; try reflexivity.
  - apply Z.div_unique with 1; lia.
  - apply Z.div_unique with 0; lia.
Qed.

Lemma shr_iter_m (n : positive) (mrs : shr_record) :
  0 <= shr_m mrs ->
  shr_m (SpecFloat.iter_pos shr_1 n mrs) = shr_m mrs / 2 ^ Zpos n.
Proof.
  intros Hm. rewrite iter_pos_iter.
  induction n as [|n IH] using Pos.peano_ind.
  - cbn [Pos.iter]. rewrite shr_1_m by exact Hm. reflexivity.
  - rewrite Pos.iter_succ, shr_1_m.
    + rewrite IH, Pos2Z.inj_succ, Z.pow_succ_r by lia.
      rewrite Z.div_div by lia. f_equal. lia.
    + rewrite IH. apply Z.div_pos; lia.
Qed.

Lemma shr_record_of_loc_m (m : Z) (l : location) :
  shr_m (shr_record_of_loc m l) = m.
Proof. destruct l as [|[]]; reflexivity. Qed.

Lemma round_nearest_even_cases (m : Z) (l : location) :
  round_nearest_even m l = m \/ round_nearest_even m l = m + 1.
Proof.
  unfold round_nearest_even.
  destruct l as [|[]]; try destruct (Z.even m); auto.
Qed.

(** Truncation of a mantissa of at least 53 digits, with an exponent
    in the normal range, to 53 digits. *)
Lemma shr_fexp_normal (mx ex : Z) (lx : location) :
  0 < mx -> 53 <= Zdigits2 mx -> -1074 <= ex ->
  shr_m (fst (shr_fexp prec emax mx ex lx)) = mx / 2 ^ (Zdigits2 mx - 53) /\
  snd (shr_fexp prec emax mx ex lx) = ex + (Zdigits2 mx - 53) /\
  2 ^ 52 <= mx / 2 ^ (Zdigits2 mx - 53) < 2 ^ 53.
Proof.
  intros Hm Hd He.
  destruct (Zdigits2_bounds mx Hm) as (_ & Hlo & Hhi).
  assert (Hrange : 2 ^ 52 <= mx / 2 ^ (Zdigits2 mx - 53) < 2 ^ 53).
  { assert (Hp : 0 < 2 ^ (Zdigits2 mx - 53)) by (apply Z.pow_pos_nonneg; lia).
    split.
    - apply Z.div_le_lower_bound; [exact Hp|].
      rewrite <- Z.pow_add_r by lia.
      replace (Zdigits2 mx - 53 + 52) with (Zdigits2 mx - 1) by lia.
      exact Hlo.
    - apply Z.div_lt_upper_bound; [exact Hp|].
      rewrite <- Z.pow_add_r by lia.
      replace (Zdigits2 mx - 53 + 53) with (Zdigits2 mx) by lia.
      exact Hhi. }
  unfold shr_fexp, fexp, emin, prec, emax.
  replace (Z.max (Zdigits2 mx + ex - 53) (3 - 1024 - 53) - ex)
    with (Zdigits2 mx - 53) by lia.
  unfold shr.
  destruct (Zdigits2 mx - 53) as [|n|n] eqn:Hn; cbn [fst snd]; try lia.
  - rewrite shr_record_of_loc_m, Z.pow_0_r, Z.div_1_r in *.
    repeat split; lia.
  - rewrite shr_iter_m by (rewrite shr_record_of_loc_m; lia).
    rewrite shr_record_of_loc_m. repeat split; lia.
Qed.

Lemma Zdigits2_ge (m k : Z) : 0 < k -> 2 ^ (k - 1) <= m -> k <= Zdigits2 m.
Proof.
  intros Hk Hlo.
  assert (Hm : 0 < m) by (pose proof (Z.pow_pos_nonneg 2 (k - 1)); lia).
  destruct (Zdigits2_bounds m Hm) as (Hd & _ & Hhi).
  destruct (Z.le_gt_cases k (Zdigits2 m)) as [Hle|Hgt]; [exact Hle|].
  pose proof (Z.pow_le_mono_r 2 (Zdigits2 m) (k - 1)). lia.
Qed.

(** A rounded result: an infinity, or a normal number whose exponent
    is at least [lo]. *)
Definition normal_from (lo : Z) (s : bool) (x : spec_float) : Prop :=
  x = S754_infinity s \/
  exists m e,
    x = S754_finite s m e /\ Zpos (digits2_pos m) = 53 /\ lo <= e <= 971.

(** Rounding a mantissa of at least 53 digits with an exponent in the
    normal range never gives a zero or a subnormal number. *)
Lemma binary_round_aux_normal (s : bool) (mx ex : Z) (lx : location) :
  0 < mx -> 53 <= Zdigits2 mx -> -1074 <= ex ->
  normal_from ex s (binary_round_aux prec emax s mx ex lx).
Proof.
  intros Hm Hd He. unfold binary_round_aux.
  destruct (shr_fexp_normal mx ex lx Hm Hd He) as (Hm1 & He1 & Hr1).
  destruct (shr_fexp prec emax mx ex lx) as [mrs1 e1]. cbn [fst snd] in *.
  set (m2 := round_nearest_even (shr_m mrs1) (loc_of_shr_record mrs1)).
  assert (Hm2 : 2 ^ 52 <= m2 <= 2 ^ 53).
  { destruct (round_nearest_even_cases (shr_m mrs1) (loc_of_shr_record mrs1))
      as [H|H]; fold m2 in H; lia. }
  assert (Hd2 : 53 <= Zdigits2 m2) by (apply Zdigits2_ge; lia).
  destruct (shr_fexp_normal m2 e1 loc_Exact) as (Hm3 & He3 & Hr3);
    [lia | exact Hd2 | lia |].
  destruct (shr_fexp prec emax m2 e1 loc_Exact) as [mrs3 e3].
  cbn [fst snd] in *.
  destruct (shr_m mrs3) as [|m|m] eqn:Hshr; try lia.
  unfold emax, prec. destruct (Z.leb_spec e3 (1024 - 53)) as [Hle|Hgt].
  - right. exists m, e3. split; [reflexivity|]. split; [|lia].
    change (Zpos (digits2_pos m)) with (Zdigits2 (Zpos m)).
    apply Zdigits2_unique; lia.
  - left. reflexivity.
Qed.

Lemma iter_xO (p k : positive) :
  Zpos (Pos.iter xO p k) = Zpos p * 2 ^ Zpos k.
Proof.
  induction k as [|k IH] using Pos.peano_ind.
  - cbn [Pos.iter]. rewrite Pos2Z.inj_xO. change (2 ^ 1) with 2. lia.
  - rewrite Pos.iter_succ, Pos2Z.inj_xO, IH, Pos2Z.inj_succ.
    rewrite Z.pow_succ_r by lia. lia.
Qed.

(** The binary64 number nearest to a non-zero integer is an infinity
    or a normal number of magnitude at least 1. *)
Lemma binary_round_int (s : bool) (p : positive) :
  normal_from (-52) s (binary_round prec emax s p 0).
Proof.
  unfold binary_round, shl_align, fexp, emin, prec, emax.
  pose proof (digits2_pos_bounds p) as [Hlo Hhi].
  replace (Z.max (Zpos (digits2_pos p) + 0 - 53) (3 - 1024 - 53) - 0)
    with (Zpos (digits2_pos p) - 53) by lia.
  assert (Hwiden : forall lo x, normal_from lo s x -> -52 <= lo ->
                                normal_from (-52) s x).
  { intros lo x [H|(m & e & H & Hd & He)] Hlo'; [left; exact H|].
    right. exists m, e. repeat split; try assumption; lia. }
  destruct (Zpos (digits2_pos p) - 53) as [|k|k] eqn:Hk.
  - apply (Hwiden 0); [|lia].
    apply binary_round_aux_normal; cbn [Zdigits2]; lia.
  - apply (Hwiden 0); [|lia].
    apply binary_round_aux_normal; cbn [Zdigits2]; lia.
  - apply (Hwiden (Zpos (digits2_pos p) + 0 - 53)); [|lia].
    replace (Z.max (Zpos (digits2_pos p) + 0 - 53) (3 - 1024 - 53))
      with (Zpos (digits2_pos p) + 0 - 53) by lia.
    apply binary_round_aux_normal; [lia| |lia].
    apply Z.eq_le_incl. symmetry. apply Zdigits2_unique; [lia|].
    rewrite iter_xO.
    assert (Hp : 2 ^ 52 = 2 ^ (Zpos (digits2_pos p) - 1) * 2 ^ Zpos k).
    { rewrite <- Z.pow_add_r by lia. f_equal. lia. }
    assert (Hq : 2 ^ 53 = 2 ^ Zpos (digits2_pos p) * 2 ^ Zpos k).
    { rewrite <- Z.pow_add_r by lia. f_equal. lia. }
    replace (53 - 1) with 52 by lia. rewrite Hp, Hq.
    assert (0 < 2 ^ Zpos k) by (apply Z.pow_pos_nonneg; lia).
    split; [apply Z.mul_le_mono_nonneg_r | apply Z.mul_lt_mono_pos_r]; lia.
Qed.

Lemma normal_from_valid (lo : Z) (s : bool) (x : spec_float) :
  -1074 <= lo -> normal_from lo s x -> valid_binary x = true.
Proof.
  intros Hlo [->|(m & e & -> & Hd & He)]; [reflexivity|].
  cbn [SpecFloat.valid_binary].
  unfold bounded, canonical_mantissa, fexp, emin, prec, emax.
  rewrite Hd. apply andb_true_intro. split; lia.
Qed.

(** [float_of_int] is the rounding it is defined by. *)
Lemma Prim2SF_float_of_int (v : Z) :
  Prim2SF (float_of_int v) = binary_normalize prec emax v 0 false.
Proof.
  unfold float_of_int. apply Prim2SF_SF2Prim.
  destruct v as [|p|p]; cbn [binary_normalize]; [reflexivity| |];
    eapply (normal_from_valid (-52)); try apply binary_round_int; lia.
Qed.

(** Dividing an infinity or a normal number of magnitude at least 1
    by 255.0 does not give a zero. *)
Lemma div_255_nonzero (s : bool) (x : spec_float) :
  normal_from (-52) s x ->
  SFeqb (SF64div x (Prim2SF 255)) (S754_zero false) = false.
Proof.
  change (Prim2SF 255) with (S754_finite false 8972014882652160 (-45)).
  intros [->|(m & e & -> & Hd & He)]; [destruct s; reflexivity|].
  unfold SF64div, SFdiv, SFdiv_core_binary.
  change (Zdigits2 (Zpos m)) with (Zpos (digits2_pos m)). rewrite Hd.
  change (Zdigits2 8972014882652160) with 53.
  unfold fexp, emin, prec, emax.
  replace (Z.min (Z.max (53 + e - (53 + -45) - 53) (3 - 1024 - 53))
             (e - -45)) with (e - 8) by lia.
  replace (e - -45 - (e - 8)) with 53 by lia.
  rewrite Z.shiftl_mul_pow2 by lia.
  pose proof (Z_div_mod (Zpos m * 2 ^ 53) 8972014882652160 eq_refl) as Hdiv.
  destruct (Z.div_eucl (Zpos m * 2 ^ 53) 8972014882652160) as [q r].
  destruct Hdiv as [Hq Hr].
  assert (Hm : 2 ^ 52 <= Zpos m).
  { pose proof (digits2_pos_bounds m) as [Hlo _]. rewrite Hd in Hlo.
    exact Hlo. }
  assert (Hq52 : 2 ^ 52 <= q).
  { change (2 ^ 52) with 4503599627370496 in *.
    change (2 ^ 53) with 9007199254740992 in *. lia. }
  assert (Hround :
    normal_from (e - 8) (xorb s false)
      (binary_round_aux prec emax (xorb s false) q (e - 8)
         (new_location 8972014882652160 r))).
  { apply binary_round_aux_normal; [lia | apply Zdigits2_ge; lia | lia]. }
  unfold prec, emax in Hround.
  destruct Hround as [->|(m' & e' & -> & _)];
    destruct (xorb s false); reflexivity.
Qed.

End Binary64.

(** A non-zero raster sample divided by 255.0 is not zero. *)
Lemma normalize_channel_nonzero (v : Z) :
  v <> 0 -> (normalize_channel v =? 0)%float = false.
Proof.
  intros Hv. unfold normalize_channel.
  rewrite FloatAxioms.eqb_spec, FloatAxioms.div_spec.
  rewrite Binary64.Prim2SF_float_of_int.
  change (Prim2SF 0) with (S754_zero false).
  destruct v as [|p|p]; [congruence| |]; cbn [binary_normalize].
  - apply (Binary64.div_255_nonzero false), Binary64.binary_round_int.
  - apply (Binary64.div_255_nonzero true), Binary64.binary_round_int.
Qed.

Lemma clean_no_rows : clean [] = Raise KeyError.
Proof. reflexivity. Qed.

(** What the cleaning steps return for a table with rows. *)
Lemma clean_spec (assembled : DataFrame Z) :
  assembled <> [] ->
  clean assembled =
    Ok (normalize_rgb (filter (fun record => kept record) assembled)) /\
  Forall clean_record
    (normalize_rgb (filter (fun record => kept record) assembled)).
Proof.
  intros Hne. split.
  - rewrite clean_nonempty by exact Hne. unfold dropna_plant_health.
    rewrite list_filter_filter. do 2 f_equal.
    apply list_filter_iff. intros record. unfold kept. tauto.
  - unfold normalize_rgb. rewrite Forall_forall. intros record Hrecord.
    apply list_elem_of_fmap in Hrecord as (raw & -> & Hraw).
    apply list_elem_of_filter in Hraw as [[Hnz Hlabel] _].
    unfold nonzero_rgb in Hnz.
    apply andb_prop in Hnz as [Hnz Hb]. apply andb_prop in Hnz as [Hr Hg].
    apply negb_true_iff, Z.eqb_neq in Hr, Hg, Hb.
    repeat split; cbn; try apply normalize_channel_nonzero; assumption.
Qed.

(** C4: after the cleaning steps no record of the table has a channel
    value equal to zero and none lacks its plant health label: the
    steps return the normalised records of exactly those rows of the
    assembled table whose three raw channel values are all non-zero and
    whose plant health label is present, every other row is removed. *)
Theorem cleaned_table_invariant (assembled : DataFrame Z) :
  assembled <> [] ->
  exists cleaned,
    clean assembled = Ok cleaned /\
    Forall clean_record cleaned /\
    cleaned = normalize_rgb (filter (fun record => kept record) assembled).
Proof.
  intros Hne. destruct (clean_spec assembled Hne) as [Hrun Hclean].
  eexists. split; [exact Hrun|]. split; [exact Hclean | reflexivity].
Qed.

(** The table the script saves satisfies the invariant. *)
Lemma training_dataset_clean
    (transformer_transform : string -> string -> float -> float -> float * float)
    (os_path_join : string -> string -> string) (fs : gmap string file)
    (geotiff_dir gt_csv_dir : string) (dates : list string)
    (zoom : float) (cleaned : DataFrame float) :
  training_dataset transformer_transform os_path_join fs
    geotiff_dir gt_csv_dir dates zoom = Ok cleaned ->
  Forall clean_record cleaned.
Proof.
  unfold training_dataset. intros H.
  apply bind_Ok_inv in H as (assembled & _ & H).
  destruct assembled as [|record assembled]; [discriminate|].
  destruct (clean_spec (record :: assembled)) as [Hrun Hclean];
    [discriminate|].
  rewrite Hrun in H. injection H as <-. exact Hclean.
Qed.

(* ================================================================== *)
(** ** The properties on the concrete scenario *)

(** The point (5.4, 5.4) of the 10x10 raster, at pixel (5, 5). *)
Lemma script_pixel_emits_one_record_scenario :
  exists red green blue,
    let record :=
      Sample.make "d1" 5 5 red green blue (CFloat 41.5) (CStr "healthy") in
    read_rgb Scenario.raster 5 5 = Ok (red, green, blue) /\
    loop_body Scenario.raster (adjusted_transform Scenario.raster 1)
      (adjusted_bounds Scenario.raster 1) "d1"
      (Scenario.gt_row 5.4 5.4 "healthy") (5.4, 5.4)%float =
      Ok (Appended record) /\
    process_geotiff_and_gt Scenario.same_crs Scenario.fs1
      "tif/d1.tif" "gt/d1.csv" "d1" 1 =
    (records_before <-
       records_of Scenario.same_crs Scenario.raster 1 "d1" "EPSG:32611" [] ;;
     records_after <-
       records_of Scenario.same_crs Scenario.raster 1 "d1" "EPSG:32611"
         [Scenario.gt_row (-1) (-1) "stressed";
          Scenario.gt_row 2 7 "healthy"] ;;
     Ok (records_before ++ record :: records_after)).
Proof.
  apply (script_pixel_emits_one_record Scenario.same_crs Scenario.fs1
           "tif/d1.tif" "gt/d1.csv" "d1" 1 Scenario.raster "EPSG:32611" []
           [Scenario.gt_row (-1) (-1) "stressed"; Scenario.gt_row 2 7 "healthy"]
           (Scenario.gt_row 5.4 5.4 "healthy") 5.4 5.4 5 5);
    try (vm_compute; reflexivity); try (cbn; lia).
  repeat constructor.
Defined.

(** On the raster of 10 rows and 20 columns that covers (0,0)-(20,10)
    the point (15, 5) is strictly inside the bounds and its pixel, row
    5 and column 15, is inside the dimensions, where the three bands
    hold the samples 105, 145 and 185; the script computes row 15 and
    column 5 and returns an empty table. *)
Lemma valid_point_dropped_by_exchanged_pixel_wide :
  adjusted_bounds Scenario.wide_raster 1 = (0, 0, 20, 10)%float /\
  ((0 <? 15) && (15 <? 20) && ((0 <? 5) && (5 <? 10)))%float = true /\
  spec_pixel_mapping (adjusted_transform Scenario.wide_raster 1) 15 5 =
    Ok (5, 15) /\
  within_dimensions Scenario.wide_raster 5 15 = true /\
  read_rgb Scenario.wide_raster 5 15 = Ok (105, 145, 185) /\
  utm_to_pixel (adjusted_transform Scenario.wide_raster 1) 15 5 =
    Ok (15, 5) /\
  loop_body Scenario.wide_raster (adjusted_transform Scenario.wide_raster 1)
    (adjusted_bounds Scenario.wide_raster 1) "d1"
    (Scenario.gt_row 15 5 "healthy") (15, 5)%float =
    Ok (OutOfBoundsPixel 15 5) /\
  process_geotiff_and_gt Scenario.same_crs
    (Scenario.files "d1" Scenario.wide_raster
       [Scenario.gt_row 15 5 "healthy"])
    "tif/d1.tif" "gt/d1.csv" "d1" 1 = Ok [].
Proof.
  destruct (valid_point_dropped_by_exchanged_pixel Scenario.same_crs
              (Scenario.files "d1" Scenario.wide_raster
                 [Scenario.gt_row 15 5 "healthy"])
              "tif/d1.tif" "gt/d1.csv" "d1" 1 Scenario.wide_raster
              "EPSG:32611" [] [] (Scenario.gt_row 15 5 "healthy")
              15 5 5 15) as [Hbody Htable];
    try (vm_compute; reflexivity); try (cbn; lia).
  do 6 (split; [vm_compute; reflexivity|]).
  split; [exact Hbody|].
  etransitivity; [exact Htable|]. vm_compute. reflexivity.
Defined.

(** The point (-1, -1) against the bounds (0,0)-(10,10). *)
Lemma out_of_bounds_row_is_skipped_scenario :
  adjusted_bounds Scenario.raster 1 = (0, 0, 10, 10)%float /\
  loop_body Scenario.raster (adjusted_transform Scenario.raster 1)
    (adjusted_bounds Scenario.raster 1) "d1"
    (Scenario.gt_row (-1) (-1) "stressed") (-1, -1)%float =
    Ok (OutOfBoundsUTM (-1) (-1)) /\
  process_geotiff_and_gt Scenario.same_crs Scenario.fs1
    "tif/d1.tif" "gt/d1.csv" "d1" 1 =
  (records_before <-
     records_of Scenario.same_crs Scenario.raster 1 "d1" "EPSG:32611"
       [Scenario.gt_row 5.4 5.4 "healthy"] ;;
   records_after <-
     records_of Scenario.same_crs Scenario.raster 1 "d1" "EPSG:32611"
       [Scenario.gt_row 2 7 "healthy"] ;;
   Ok (records_before ++ records_after)).
Proof.
  split; [vm_compute; reflexivity|].
  apply (out_of_bounds_row_is_skipped Scenario.same_crs Scenario.fs1
           "tif/d1.tif" "gt/d1.csv" "d1" 1 Scenario.raster "EPSG:32611"
           [Scenario.gt_row 5.4 5.4 "healthy"] [Scenario.gt_row 2 7 "healthy"]
           (Scenario.gt_row (-1) (-1) "stressed") 0 0 10 10 (-1) (-1));
    try (vm_compute; reflexivity).
  left. vm_compute. reflexivity.
Defined.

(** The pixel (5, 5) of the 10x10 raster. *)
Lemma index_error_branch_unreachable_scenario :
  (forall arr, arr ∈ Rasterio.bands Scenario.raster ->
     exists v, Numpy.getitem arr 5 5 = Ok v) /\
  (exists red green blue,
     read_rgb Scenario.raster 5 5 = Ok (red, green, blue)) /\
  (forall transform bounds date row utm r c,
     loop_body Scenario.raster transform bounds date row utm <>
     Ok (IndexErrorAt r c)).
Proof.
  apply (index_error_branch_unreachable Scenario.raster 5 5);
    [repeat constructor | cbn; lia | reflexivity].
Defined.

(** A raster with a single band of shape (10, 10). The pixel (5, 5)
    passes the dimension check and indexing the band array there
    succeeds, yet the iteration of the point (5.4, 5.4) ends in the
    branch that catches the index failure: the read of band 2 raises
    it. *)
Lemma index_error_branch_reached_single_band :
  Rasterio.well_formed Edge.grayscale /\
  within_dimensions Edge.grayscale 5 5 = true /\
  Forall (fun arr => Numpy.getitem arr 5 5 = Ok 95)
    (Rasterio.bands Edge.grayscale) /\
  Rasterio.read Edge.grayscale 2 = Raise IndexError /\
  loop_body Edge.grayscale (adjusted_transform Edge.grayscale 1)
    (adjusted_bounds Edge.grayscale 1) "d1"
    (Scenario.gt_row 5.4 5.4 "healthy") (5.4, 5.4)%float =
    Ok (IndexErrorAt 5 5).
Proof.
  split; [repeat constructor|].
  repeat split; try (vm_compute; reflexivity).
  repeat constructor.
Qed.

(** Two dates, the chlorophyll column of the first an integer column
    and that of the second a float column: the table is that of "d1"
    followed by that of "d2", the chlorophyll cells as floats. *)
Lemma create_training_dataset_concatenates_scenario :
  create_training_dataset Scenario.same_crs Scenario.posixpath_join
    Edge.fs_mixed "tif" "gt" ["d1"; "d2"] 1 =
    Ok (unify_labels (concat [Edge.mixed_table "d1"; Edge.mixed_table "d2"])) /\
  Forall2 same_row
    (concat [Edge.mixed_table "d1"; Edge.mixed_table "d2"])
    (unify_labels (concat [Edge.mixed_table "d1"; Edge.mixed_table "d2"])) /\
  map Sample.Date
    (unify_labels (concat [Edge.mixed_table "d1"; Edge.mixed_table "d2"])) =
    ["d1"; "d1"; "d2"] /\
  length
    (unify_labels (concat [Edge.mixed_table "d1"; Edge.mixed_table "d2"])) =
    3%nat.
Proof.
  destruct (create_training_dataset_concatenates Scenario.same_crs
              Scenario.posixpath_join Edge.fs_mixed "tif" "gt" ["d1"; "d2"] 1)
    as [Hrun Hrows].
  assert (Htables :
    Forall2
      (fun date per_date =>
         process_date Scenario.same_crs Scenario.posixpath_join Edge.fs_mixed
           "tif" "gt" 1 date = Ok per_date)
      ["d1"; "d2"] [Edge.mixed_table "d1"; Edge.mixed_table "d2"])
    by (repeat constructor; vm_compute; reflexivity).
  split.
  - apply Hrun. split; [discriminate|].
    exists [Edge.mixed_table "d1"; Edge.mixed_table "d2"].
    split; [exact Htables | reflexivity].
  - destruct (Hrows _ Htables) as (Hsame & Hcol & Hlen).
    split; [exact Hsame|].
    split; [etransitivity; [exact Hcol|] | etransitivity; [exact Hlen|]];
      vm_compute; reflexivity.
Defined.

(** The tables of the two dates, and the assembled table: the integers
    of the first are floats in it, the nearest ones. *)
Example create_training_dataset_mixed :
  Edge.mixed_table "d1" =
    [Sample.make "d1" 5 5 95 135 175 (CInt 39) (CStr "healthy");
     Sample.make "d1" 2 3 63 103 143 (CInt 9007199254740993)
       (CStr "stressed")] /\
  Edge.mixed_table "d2" =
    [Sample.make "d2" 2 3 63 103 143 (CFloat 41.5) (CStr "stressed")] /\
  create_training_dataset Scenario.same_crs Scenario.posixpath_join
    Edge.fs_mixed "tif" "gt" ["d1"; "d2"] 1 =
    Ok [Sample.make "d1" 5 5 95 135 175 (CFloat 39) (CStr "healthy");
        Sample.make "d1" 2 3 63 103 143 (CFloat 9007199254740992)
          (CStr "stressed");
        Sample.make "d2" 2 3 63 103 143 (CFloat 41.5) (CStr "stressed")].
Proof. repeat split; vm_compute; reflexivity. Qed.

(** With one date, or with integer columns only, the cells stay
    integers. *)
Example create_training_dataset_int_column :
  create_training_dataset Scenario.same_crs Scenario.posixpath_join
    Edge.fs_mixed "tif" "gt" ["d1"; "d1"] 1 =
    Ok (Edge.mixed_table "d1" ++ Edge.mixed_table "d1").
Proof. vm_compute. reflexivity. Qed.

(** The assembled table of the scenario has 8-bit samples. *)
Lemma normalized_channels_in_unit_interval_scenario :
  exists cleaned,
    clean Scenario.assembled = Ok cleaned /\
    Forall rgb_in_unit_interval cleaned.
Proof.
  apply (normalized_channels_in_unit_interval Scenario.assembled);
    [discriminate|].
  repeat constructor; unfold eight_bit; cbn; lia.
Defined.

(** Of the three records of the scenario only the first is kept. *)
Lemma cleaned_table_invariant_scenario :
  exists cleaned,
    clean Scenario.assembled = Ok cleaned /\
    Forall clean_record cleaned /\
    cleaned =
      normalize_rgb (filter (fun record => kept record) Scenario.assembled).
Proof.
  apply (cleaned_table_invariant Scenario.assembled). discriminate.
Defined.

Example cleaned_scenario :
  clean Scenario.assembled =
  Ok [Sample.make "d1" 5 5 (95 / 255)%float (135 / 255)%float
        (175 / 255)%float (CFloat 41.5) (CStr "healthy")].
Proof. vm_compute. reflexivity. Qed.

(** A ground-truth table without the label columns: the first row that
    reaches the construction of a record raises [KeyError], which the
    loop does not catch; a table without the coordinate columns raises
    it before the loop; on a raster without a CRS the [AttributeError]
    comes first. *)
Example missing_columns :
  process_geotiff_and_gt Scenario.same_crs Edge.fs_unlabelled
    "tif/d1.tif" "gt/d1.csv" "d1" 1 = Raise KeyError /\
  process_geotiff_and_gt Scenario.same_crs Edge.fs_no_coordinates
    "tif/d1.tif" "gt/d1.csv" "d1" 1 = Raise KeyError /\
  process_geotiff_and_gt Scenario.same_crs
    (<["tif/d1.tif" := GeoTIFF Edge.no_crs]> Edge.fs_no_coordinates)
    "tif/d1.tif" "gt/d1.csv" "d1" 1 = Raise AttributeError /\
  process_geotiff_and_gt Scenario.same_crs
    (<["gt/d1.csv" := CoordinatesCsv [(-1, -1)%float]]> Edge.fs_unlabelled)
    "tif/d1.tif" "gt/d1.csv" "d1" 1 = Ok [].
Proof. repeat split; vm_compute; reflexivity. Qed.

Example round_ties_to_even :
  Py.round 0.5 = Ok 0 /\ Py.round 1.5 = Ok 2 /\ Py.round 2.5 = Ok 2 /\
  Py.round (-2.5) = Ok (-2) /\ Py.round 4.6 = Ok 5 /\
  Py.round nan = Raise ValueError /\ Py.round infinity = Raise OverflowError.
Proof. repeat split; vm_compute; reflexivity. Qed.

(** With input directories "tif" and "gt", joined as on POSIX, the paths
    the script reads differ from the path it writes: a second run saves
    the same table again. *)
Example run_script_twice_posix (fs : gmap string file) :
  run_script Scenario.same_crs Scenario.posixpath_join "tif" "gt"
    (run_script Scenario.same_crs Scenario.posixpath_join "tif" "gt" fs).2 =
  run_script Scenario.same_crs Scenario.posixpath_join "tif" "gt" fs.
Proof.
  apply run_script_twice. repeat constructor; vm_compute; discriminate.
Qed.

(* ================================================================== *)
(** ** Further properties of the extractor *)

(** What an iteration that appends a record establishes. *)
Lemma loop_body_Appended_inv (dataset : Rasterio.dataset)
    (transform : Affine.t) (bounds : float * float * float * float)
    (date : string) (row : GT.row) (utm : float * float)
    (record : Sample.t Z) :
  loop_body dataset transform bounds date row utm = Ok (Appended record) ->
  extracted_from dataset transform bounds date row utm record.
Proof.
  destruct utm as [utm_x utm_y]. unfold loop_body, extracted_from.
  destruct (within_bounds bounds utm_x utm_y) eqn:Hin; [|discriminate].
  cbn [negb fst snd].
  destruct (utm_to_pixel transform utm_x utm_y) as [[r c]|e] eqn:Hpx;
    cbn [Py.bind]; [|discriminate].
  destruct (within_dimensions dataset r c) eqn:Hdim; [|discriminate].
  destruct (read_rgb dataset r c) as [[[red green] blue]|e] eqn:Hrgb; cbn.
  - intros [= <-]. cbn. repeat split; assumption.
  - destruct (is_IndexError e); discriminate.
Qed.

Section ExtractorProperties.

Variable transformer_transform :
  string -> string -> float -> float -> float * float.

(** The outcomes of the loop, row by row. *)
Lemma iterrows_loop_Forall2 (dataset : Rasterio.dataset)
    (zoom_factor : float) (date geotiff_crs : string)
    (gt_data : list GT.row) (outcomes : list outcome) :
  iterrows_loop transformer_transform dataset
    (adjusted_transform dataset zoom_factor)
    (adjusted_bounds dataset zoom_factor) date geotiff_crs gt_data =
    Ok outcomes <->
  Forall2
    (fun row o =>
       loop_body dataset (adjusted_transform dataset zoom_factor)
         (adjusted_bounds dataset zoom_factor) date row
         (projected transformer_transform geotiff_crs row) = Ok o)
    gt_data outcomes.
Proof. unfold iterrows_loop. apply for_each_Forall2. Qed.

(** Every record of the table of a date was extracted from a row of the
    ground-truth table of that date. *)
Lemma extracted_records_from_rows (fs : gmap string file)
    (geotiff_file gt_csv_file date : string) (zoom_factor : float)
    (dataset : Rasterio.dataset) (geotiff_crs : string)
    (gt_data : list GT.row) (table : DataFrame Z) :
  fs !! geotiff_file = Some (GeoTIFF dataset) ->
  fs !! gt_csv_file = Some (GroundTruthCsv gt_data) ->
  Rasterio.crs dataset = Some geotiff_crs ->
  process_geotiff_and_gt transformer_transform fs
    geotiff_file gt_csv_file date zoom_factor = Ok table ->
  Forall
    (fun record =>
       exists row,
         row ∈ gt_data /\
         extracted_from dataset (adjusted_transform dataset zoom_factor)
           (adjusted_bounds dataset zoom_factor) date row
           (projected transformer_transform geotiff_crs row) record)
    table.
Proof.
  intros Htif Hcsv Hcrs.
  rewrite (process_geotiff_and_gt_opened _ _ _ _ _ _ _ _ _ Htif Hcsv Hcrs).
  unfold records_of. intros H.
  apply bind_Ok_inv in H as (outcomes & H & [= <-]).
  apply iterrows_loop_Forall2 in H. clear Hcsv.
  induction H as [|row o gt_data outcomes Ho _ IH]; [constructor|].
  assert (Hrest :
    Forall
      (fun record =>
         exists row',
           row' ∈ row :: gt_data /\
           extracted_from dataset (adjusted_transform dataset zoom_factor)
             (adjusted_bounds dataset zoom_factor) date row'
             (projected transformer_transform geotiff_crs row') record)
      (appended outcomes)).
  { eapply Forall_impl; [exact IH|].
    intros record (row' & Hrow' & Hrec). exists row'.
    split; [apply list_elem_of_further, Hrow' | exact Hrec]. }
  destruct o; simpl; try exact Hrest.
  constructor; [|exact Hrest].
  exists row. split; [apply list_elem_of_here|].
  apply loop_body_Appended_inv, Ho.
Qed.

Lemma axis_index_nonneg (i n : Z) (k : nat) :
  0 <= i -> Numpy.axis_index i n = Ok k -> k = Z.to_nat i.
Proof.
  intros Hi. unfold Numpy.axis_index.
  destruct ((0 <=? i) && (i <? n)); [intros [= <-]; reflexivity|].
  destruct ((- n <=? i) && (i <? 0)) eqn:Hneg; [lia | discriminate].
Qed.

(** Indexing an array at a row and a column that are not negative
    gives the element of the list of rows at these positions. *)
Lemma getitem_lookup (arr : Numpy.ndarray2) (r c v : Z) :
  0 <= r -> 0 <= c -> Numpy.getitem arr r c = Ok v ->
  exists line, arr !! Z.to_nat r = Some line /\ line !! Z.to_nat c = Some v.
Proof.
  intros Hr Hc. unfold Numpy.getitem. intros H.
  apply bind_Ok_inv in H as (i & Hi & H).
  apply (axis_index_nonneg _ _ _ Hr) in Hi as ->.
  destruct (arr !! Z.to_nat r) as [line|] eqn:Hline; [|discriminate].
  apply bind_Ok_inv in H as (j & Hj & H).
  apply (axis_index_nonneg _ _ _ Hc) in Hj as ->.
  destruct (line !! Z.to_nat c) as [v'|] eqn:Hv; [|discriminate].
  injection H as <-. exists line. split; [reflexivity | exact Hv].
Qed.

Lemma read_lookup (dataset : Rasterio.dataset) (bidx : Z)
    (arr : Numpy.ndarray2) :
  Rasterio.read dataset bidx = Ok arr ->
  Rasterio.bands dataset !! Z.to_nat (bidx - 1) = Some arr.
Proof.
  unfold Rasterio.read. destruct (_ && _); [|discriminate].
  destruct (Rasterio.bands dataset !! Z.to_nat (bidx - 1)) as [arr'|];
    [|discriminate].
  intros [= <-]. reflexivity.
Qed.

Lemma read_getitem_band_sample (dataset : Rasterio.dataset) (bidx r c v : Z)
    (arr : Numpy.ndarray2) :
  0 <= r -> 0 <= c ->
  Rasterio.read dataset bidx = Ok arr -> Numpy.getitem arr r c = Ok v ->
  band_sample dataset (Z.to_nat (bidx - 1)) r c v.
Proof.
  intros Hr Hc Hread Hget. apply read_lookup in Hread.
  destruct (getitem_lookup _ _ _ _ Hr Hc Hget) as (line & Hline & Hv).
  exists arr, line. repeat split; assumption.
Qed.

Lemma extracted_from_sampled_from (dataset : Rasterio.dataset)
    (transform : Affine.t) (bounds : float * float * float * float)
    (date : string) (row : GT.row) (utm : float * float)
    (record : Sample.t Z) :
  extracted_from dataset transform bounds date row utm record ->
  sampled_from dataset transform bounds date row utm record.
Proof.
  intros (Hdate & Hlabels & Hin & Hpx & Hdim & Hrgb).
  destruct bounds as [[[min_x min_y] max_x] max_y].
  destruct utm as [utm_x utm_y]. cbn [fst snd] in *.
  unfold record_labels, row_labels in Hlabels. injection Hlabels as Hc Hp.
  apply within_dimensions_spec in Hdim as [Hr Hcol].
  unfold sampled_from. cbn [fst snd].
  split; [exact Hdate|]. split; [exact Hc|]. split; [exact Hp|].
  split.
  { unfold within_bounds in Hin.
    apply andb_true_iff in Hin as [Hx Hy].
    apply andb_true_iff in Hx as [Hx0 Hx1].
    apply andb_true_iff in Hy as [Hy0 Hy1].
    repeat split; assumption. }
  split.
  { unfold utm_to_pixel in Hpx.
    apply bind_Ok_inv in Hpx as (inverse & Hinv & Hpx).
    exists inverse. split; [exact Hinv|].
    destruct (Affine.apply inverse (utm_x, utm_y)) as [u v]. cbn [fst snd].
    apply bind_Ok_inv in Hpx as (i & Hi & Hpx).
    apply bind_Ok_inv in Hpx as (j & Hj & [= <- <-]).
    split; assumption. }
  split; [exact Hr|]. split; [exact Hcol|].
  unfold read_rgb in Hrgb.
  apply bind_Ok_inv in Hrgb as (band1 & Hb1 & Hrgb).
  apply bind_Ok_inv in Hrgb as (red & Hred & Hrgb).
  apply bind_Ok_inv in Hrgb as (band2 & Hb2 & Hrgb).
  apply bind_Ok_inv in Hrgb as (green & Hgreen & Hrgb).
  apply bind_Ok_inv in Hrgb as (band3 & Hb3 & Hrgb).
  apply bind_Ok_inv in Hrgb as (blue & Hblue & [= <- <- <-]).
  split; [|split].
  - exact (read_getitem_band_sample _ 1 _ _ _ _ (proj1 Hr) (proj1 Hcol)
             Hb1 Hred).
  - exact (read_getitem_band_sample _ 2 _ _ _ _ (proj1 Hr) (proj1 Hcol)
             Hb2 Hgreen).
  - exact (read_getitem_band_sample _ 3 _ _ _ _ (proj1 Hr) (proj1 Hcol)
             Hb3 Hblue).
Qed.

(** Every record of the table of a date comes from a row of the
    ground-truth table of that date: it carries the date and the two
    labels of the row; the projected coordinate of the row lies inside
    the adjusted bounds; its [Pixel Row] and [Pixel Col] are the
    rounded first and second component of the image of that coordinate
    under the inverse of the adjusted transform, and lie inside the
    dimensions of the raster; its channel values are the samples of
    bands 1, 2 and 3 at row [Pixel Row] and column [Pixel Col]. *)
Theorem extracted_records_are_sound (fs : gmap string file)
    (geotiff_file gt_csv_file date : string) (zoom_factor : float)
    (dataset : Rasterio.dataset) (geotiff_crs : string)
    (gt_data : list GT.row) (table : DataFrame Z) :
  fs !! geotiff_file = Some (GeoTIFF dataset) ->
  fs !! gt_csv_file = Some (GroundTruthCsv gt_data) ->
  Rasterio.crs dataset = Some geotiff_crs ->
  process_geotiff_and_gt transformer_transform fs
    geotiff_file gt_csv_file date zoom_factor = Ok table ->
  Forall
    (fun record =>
       exists row,
         row ∈ gt_data /\
         sampled_from dataset (adjusted_transform dataset zoom_factor)
           (adjusted_bounds dataset zoom_factor) date row
           (projected transformer_transform geotiff_crs row) record)
    table.
Proof.
  intros Htif Hcsv Hcrs H.
  eapply Forall_impl;
    [exact (extracted_records_from_rows _ _ _ _ _ _ _ _ _ Htif Hcsv Hcrs H)|].
  intros record (row & Hrow & Hrec). exists row.
  split; [exact Hrow | apply extracted_from_sampled_from, Hrec].
Qed.

(** The table of a date has at most one record per ground-truth row, in
    the order of the rows: the label pairs of its records form a
    subsequence of the label pairs of the ground-truth table. *)
Theorem extracted_records_in_row_order (fs : gmap string file)
    (geotiff_file gt_csv_file date : string) (zoom_factor : float)
    (gt_data : list GT.row) (table : DataFrame Z) :
  fs !! gt_csv_file = Some (GroundTruthCsv gt_data) ->
  process_geotiff_and_gt transformer_transform fs
    geotiff_file gt_csv_file date zoom_factor = Ok table ->
  sublist (map record_labels table) (map row_labels gt_data) /\
  (length table <= length gt_data)%nat.
Proof.
  intros Hcsv H.
  assert (Hsub : sublist (map record_labels table) (map row_labels gt_data)).
  { unfold process_geotiff_and_gt, process_rows, read_csv in H.
    apply bind_Ok_inv in H as (outcomes & H & [= <-]).
    apply bind_Ok_inv in H as (dataset & _ & H).
    rewrite Hcsv in H. cbn [Py.bind] in H.
    apply bind_Ok_inv in H as (geotiff_crs & _ & H).
    unfold iterrows_loop in H. apply for_each_Forall2 in H. clear Hcsv.
    induction H as [|row o gt_data' outcomes Ho _ IH]; [constructor|].
    destruct o; simpl; try (apply sublist_cons, IH).
    apply loop_body_Appended_inv in Ho as (_ & -> & _).
    apply sublist_skip, IH. }
  split; [exact Hsub|].
  apply sublist_length in Hsub. rewrite !length_map in Hsub. exact Hsub.
Qed.

(** A row inside the adjusted bounds whose rounded pixel is outside the
    dimensions of the raster is skipped: its iteration prints the pixel
    message and the table consists of the records of the other rows. *)
Theorem pixel_outside_dimensions_is_skipped (fs : gmap string file)
    (geotiff_file gt_csv_file date : string) (zoom_factor : float)
    (dataset : Rasterio.dataset) (geotiff_crs : string)
    (before after : list GT.row) (row : GT.row)
    (utm_x utm_y : float) (pixel_row pixel_col : Z) :
  fs !! geotiff_file = Some (GeoTIFF dataset) ->
  fs !! gt_csv_file = Some (GroundTruthCsv (before ++ row :: after)) ->
  Rasterio.crs dataset = Some geotiff_crs ->
  projected transformer_transform geotiff_crs row = (utm_x, utm_y) ->
  within_bounds (adjusted_bounds dataset zoom_factor) utm_x utm_y = true ->
  utm_to_pixel (adjusted_transform dataset zoom_factor) utm_x utm_y =
    Ok (pixel_row, pixel_col) ->
  within_dimensions dataset pixel_row pixel_col = false ->
  loop_body dataset (adjusted_transform dataset zoom_factor)
    (adjusted_bounds dataset zoom_factor) date row (utm_x, utm_y) =
    Ok (OutOfBoundsPixel pixel_row pixel_col) /\
  process_geotiff_and_gt transformer_transform fs
    geotiff_file gt_csv_file date zoom_factor =
  (records_before <-
     records_of transformer_transform dataset zoom_factor date
       geotiff_crs before ;;
   records_after <-
     records_of transformer_transform dataset zoom_factor date
       geotiff_crs after ;;
   Ok (records_before ++ records_after)).
Proof.
  intros Htif Hcsv Hcrs Hutm Hin Hpx Hdim.
  assert (Hbody :
    loop_body dataset (adjusted_transform dataset zoom_factor)
      (adjusted_bounds dataset zoom_factor) date row (utm_x, utm_y) =
    Ok (OutOfBoundsPixel pixel_row pixel_col)).
  { unfold loop_body. rewrite Hin. cbn [negb]. rewrite Hpx. cbn [Py.bind].
    rewrite Hdim. reflexivity. }
  split; [exact Hbody|].
  rewrite (process_geotiff_and_gt_opened _ _ _ _ _ _ _ _ _ Htif Hcsv Hcrs).
  rewrite (records_of_split _ _ _ _ _ _ _ _ (OutOfBoundsPixel pixel_row pixel_col));
    [reflexivity | rewrite Hutm; exact Hbody].
Qed.

End ExtractorProperties.

(* ================================================================== *)
(** ** NaN in comparisons and arithmetic *)

Lemma is_nan_Prim2SF (x : float) : is_nan x = true -> Prim2SF x = S754_nan.
Proof. intros H. unfold Prim2SF. rewrite H. reflexivity. Qed.

Lemma Prim2SF_is_nan (x : float) : Prim2SF x = S754_nan -> is_nan x = true.
Proof.
  intros H. unfold is_nan. rewrite FloatAxioms.eqb_spec, H. reflexivity.
Qed.

Lemma leb_nan_l (x y : float) : is_nan x = true -> (x <=? y)%float = false.
Proof.
  intros H. rewrite FloatAxioms.leb_spec, (is_nan_Prim2SF x H). reflexivity.
Qed.

Lemma leb_nan_r (x y : float) : is_nan y = true -> (x <=? y)%float = false.
Proof.
  intros H. rewrite FloatAxioms.leb_spec, (is_nan_Prim2SF y H).
  destruct (Prim2SF x); reflexivity.
Qed.

Lemma mul_nan_l (x y : float) : is_nan x = true -> is_nan (x * y) = true.
Proof.
  intros H. apply Prim2SF_is_nan.
  rewrite FloatAxioms.mul_spec, (is_nan_Prim2SF x H). reflexivity.
Qed.

Lemma mul_nan_r (x y : float) : is_nan y = true -> is_nan (x * y) = true.
Proof.
  intros H. apply Prim2SF_is_nan.
  rewrite FloatAxioms.mul_spec, (is_nan_Prim2SF y H).
  destruct (Prim2SF x); reflexivity.
Qed.

Lemma add_nan_l (x y : float) : is_nan x = true -> is_nan (x + y) = true.
Proof.
  intros H. apply Prim2SF_is_nan.
  rewrite FloatAxioms.add_spec, (is_nan_Prim2SF x H). reflexivity.
Qed.

Lemma add_nan_r (x y : float) : is_nan y = true -> is_nan (x + y) = true.
Proof.
  intros H. apply Prim2SF_is_nan.
  rewrite FloatAxioms.add_spec, (is_nan_Prim2SF y H).
  destruct (Prim2SF x); reflexivity.
Qed.

(** A point with a NaN coordinate fails the bounds check, whatever the
    bounds. *)
Lemma within_bounds_nan (bounds : float * float * float * float)
    (utm_x utm_y : float) :
  is_nan utm_x = true \/ is_nan utm_y = true ->
  within_bounds bounds utm_x utm_y = false.
Proof.
  destruct bounds as [[[b0 b1] b2] b3]. unfold within_bounds.
  intros [H|H].
  - rewrite (leb_nan_r b0 utm_x H). reflexivity.
  - rewrite (leb_nan_r b1 utm_y H). apply andb_false_r.
Qed.

(** Bounds with a NaN left edge let no point pass. *)
Lemma within_bounds_nan_left (b0 b1 b2 b3 utm_x utm_y : float) :
  is_nan b0 = true -> within_bounds (b0, b1, b2, b3) utm_x utm_y = false.
Proof. intros H. unfold within_bounds. rewrite (leb_nan_l b0 utm_x H). reflexivity. Qed.

(* ================================================================== *)
(** ** Exceptions of the extractor *)

Lemma getitem_raises (arr : Numpy.ndarray2) (r c : Z) (e : exn) :
  Numpy.getitem arr r c = Raise e -> e = IndexError.
Proof.
  unfold Numpy.getitem, Numpy.axis_index.
  destruct (_ && _); cbn [Py.bind].
  2: destruct (_ && _); cbn [Py.bind]; [|congruence].
  all: destruct (arr !! _) as [row|]; [|congruence].
  all: destruct (_ && _); cbn [Py.bind];
    [|destruct (_ && _); cbn [Py.bind]; [|congruence]].
  all: destruct (row !! _); congruence.
Qed.

Lemma read_raises (dataset : Rasterio.dataset) (bidx : Z) (e : exn) :
  Rasterio.read dataset bidx = Raise e -> e = IndexError.
Proof.
  unfold Rasterio.read. destruct (_ && _); [|congruence].
  destruct (Rasterio.bands dataset !! _); congruence.
Qed.

(** The three reads raise nothing but [IndexError]. *)
Lemma read_rgb_raises (dataset : Rasterio.dataset) (r c : Z) (e : exn) :
  read_rgb dataset r c = Raise e -> e = IndexError.
Proof.
  unfold read_rgb.
  destruct (Rasterio.read dataset 1) as [b1|e1] eqn:H1; cbn [Py.bind];
    [|intros [= <-]; exact (read_raises _ _ _ H1)].
  destruct (Numpy.getitem b1 r c) as [red|e1'] eqn:G1; cbn [Py.bind];
    [|intros [= <-]; exact (getitem_raises _ _ _ _ G1)].
  destruct (Rasterio.read dataset 2) as [b2|e2] eqn:H2; cbn [Py.bind];
    [|intros [= <-]; exact (read_raises _ _ _ H2)].
  destruct (Numpy.getitem b2 r c) as [green|e2'] eqn:G2; cbn [Py.bind];
    [|intros [= <-]; exact (getitem_raises _ _ _ _ G2)].
  destruct (Rasterio.read dataset 3) as [b3|e3] eqn:H3; cbn [Py.bind];
    [|intros [= <-]; exact (read_raises _ _ _ H3)].
  destruct (Numpy.getitem b3 r c) as [blue|e3'] eqn:G3; cbn [Py.bind];
    [discriminate|intros [= <-]; exact (getitem_raises _ _ _ _ G3)].
Qed.

(** On a raster with fewer than three bands the reads fail. *)
Lemma read_rgb_few_bands (dataset : Rasterio.dataset) (r c : Z) :
  Z.of_nat (length (Rasterio.bands dataset)) < 3 ->
  read_rgb dataset r c = Raise IndexError.
Proof.
  intros Hbands.
  destruct (read_rgb dataset r c) as [[[red green] blue]|e] eqn:Hrgb.
  - exfalso. unfold read_rgb in Hrgb.
    apply bind_Ok_inv in Hrgb as (b1 & _ & Hrgb).
    apply bind_Ok_inv in Hrgb as (red' & _ & Hrgb).
    apply bind_Ok_inv in Hrgb as (b2 & _ & Hrgb).
    apply bind_Ok_inv in Hrgb as (green' & _ & Hrgb).
    apply bind_Ok_inv in Hrgb as (b3 & Hb3 & _).
    unfold Rasterio.read in Hb3.
    destruct (Z.leb_spec 3 (Z.of_nat (length (Rasterio.bands dataset))));
      [lia|].
    rewrite andb_false_r in Hb3. discriminate.
  - f_equal. exact (read_rgb_raises _ _ _ _ Hrgb).
Qed.

(** An exception that escapes an iteration of the loop comes from the
    pixel mapping. *)
Lemma loop_body_raises (dataset : Rasterio.dataset) (transform : Affine.t)
    (bounds : float * float * float * float) (date : string)
    (row : GT.row) (utm : float * float) (e : exn) :
  loop_body dataset transform bounds date row utm = Raise e ->
  utm_to_pixel transform (fst utm) (snd utm) = Raise e.
Proof.
  destruct utm as [utm_x utm_y]. unfold loop_body. cbn [fst snd].
  destruct (negb (within_bounds bounds utm_x utm_y)); [discriminate|].
  destruct (utm_to_pixel transform utm_x utm_y) as [[r c]|e'];
    cbn [Py.bind]; [|intros [= <-]; reflexivity].
  destruct (within_dimensions dataset r c); [|discriminate].
  destruct (read_rgb dataset r c) as [[[red green] blue]|e'] eqn:Hrgb.
  - cbn. discriminate.
  - rewrite (read_rgb_raises _ _ _ _ Hrgb). cbn. discriminate.
Qed.

Lemma round_raises (x : float) (e : exn) :
  Py.round x = Raise e -> e = ValueError \/ e = OverflowError.
Proof.
  unfold Py.round. destruct (Prim2SF x); intros [= <-]; auto.
Qed.

Lemma utm_to_pixel_raises (transform : Affine.t) (utm_x utm_y : float)
    (e : exn) :
  utm_to_pixel transform utm_x utm_y = Raise e ->
  e = TransformNotInvertibleError \/ e = ValueError \/ e = OverflowError.
Proof.
  unfold utm_to_pixel, Affine.invert.
  destruct (Affine.is_degenerate transform); cbn [Py.bind];
    [intros [= <-]; auto|].
  destruct (Affine.apply _ _) as [u v].
  destruct (Py.round u) as [i|e1] eqn:Hu; cbn [Py.bind].
  - destruct (Py.round v) as [j|e2] eqn:Hv; cbn [Py.bind]; [discriminate|].
    intros [= <-]. right. exact (round_raises _ _ Hv).
  - intros [= <-]. right. exact (round_raises _ _ Hu).
Qed.

Lemma for_each_raises {A B : Type} (f : A -> result B) (l : list A)
    (e : exn) :
  for_each f l = Raise e -> exists x, x ∈ l /\ f x = Raise e.
Proof.
  induction l as [|x l IH]; [discriminate|]. cbn [for_each].
  destruct (f x) as [y|e'] eqn:Hx; cbn [Py.bind].
  - destruct (for_each f l) as [ys|e'']; cbn [Py.bind]; [discriminate|].
    intros [= <-]. destruct (IH eq_refl) as (x' & Hin & Hx').
    exists x'. split; [apply list_elem_of_further, Hin | exact Hx'].
  - intros [= <-]. exists x. split; [apply list_elem_of_here | exact Hx].
Qed.

Section ExtractorEdgeCases.

Variable transformer_transform :
  string -> string -> float -> float -> float * float.
Variable os_path_join : string -> string -> string.

(** A ground-truth row whose projected coordinate has a NaN component
    (a missing longitude or latitude) is skipped as out of bounds,
    whatever the raster: it raises nothing and contributes no record. *)
Theorem nan_coordinate_is_skipped (dataset : Rasterio.dataset)
    (zoom_factor : float) (date geotiff_crs : string)
    (before after : list GT.row) (row : GT.row) (utm_x utm_y : float) :
  projected transformer_transform geotiff_crs row = (utm_x, utm_y) ->
  is_nan utm_x = true \/ is_nan utm_y = true ->
  loop_body dataset (adjusted_transform dataset zoom_factor)
    (adjusted_bounds dataset zoom_factor) date row (utm_x, utm_y) =
    Ok (OutOfBoundsUTM utm_x utm_y) /\
  records_of transformer_transform dataset zoom_factor date geotiff_crs
    (before ++ row :: after) =
  (records_before <-
     records_of transformer_transform dataset zoom_factor date
       geotiff_crs before ;;
   records_after <-
     records_of transformer_transform dataset zoom_factor date
       geotiff_crs after ;;
   Ok (records_before ++ records_after)).
Proof.
  intros Hutm Hnan.
  assert (Hbody :
    loop_body dataset (adjusted_transform dataset zoom_factor)
      (adjusted_bounds dataset zoom_factor) date row (utm_x, utm_y) =
    Ok (OutOfBoundsUTM utm_x utm_y)).
  { unfold loop_body. rewrite (within_bounds_nan _ _ _ Hnan). reflexivity. }
  split; [exact Hbody|].
  rewrite (records_of_split _ _ _ _ _ _ _ _ (OutOfBoundsUTM utm_x utm_y));
    [reflexivity | rewrite Hutm; exact Hbody].
Qed.

Lemma loop_body_few_bands (dataset : Rasterio.dataset)
    (transform : Affine.t) (bounds : float * float * float * float)
    (date : string) (row : GT.row) (utm : float * float)
    (record : Sample.t Z) :
  Z.of_nat (length (Rasterio.bands dataset)) < 3 ->
  loop_body dataset transform bounds date row utm <> Ok (Appended record).
Proof.
  intros Hbands H. apply loop_body_Appended_inv in H as (_ & _ & _ & _ & _ & H).
  rewrite read_rgb_few_bands in H by exact Hbands. discriminate.
Qed.

(** On a raster with fewer than three bands no record is ever
    extracted: a row that passes both checks ends in the branch that
    catches the index failure, and the table of the date is empty
    whenever the loop completes. *)
Theorem few_bands_extract_nothing (fs : gmap string file)
    (geotiff_file gt_csv_file date : string) (zoom_factor : float)
    (dataset : Rasterio.dataset) :
  fs !! geotiff_file = Some (GeoTIFF dataset) ->
  Z.of_nat (length (Rasterio.bands dataset)) < 3 ->
  (forall transform bounds row utm_x utm_y pixel_row pixel_col,
     within_bounds bounds utm_x utm_y = true ->
     utm_to_pixel transform utm_x utm_y = Ok (pixel_row, pixel_col) ->
     within_dimensions dataset pixel_row pixel_col = true ->
     loop_body dataset transform bounds date row (utm_x, utm_y) =
       Ok (IndexErrorAt pixel_row pixel_col)) /\
  process_geotiff_and_gt transformer_transform fs
    geotiff_file gt_csv_file date zoom_factor =
  (outcomes <-
     process_rows transformer_transform fs geotiff_file gt_csv_file date
       zoom_factor ;;
   Ok []).
Proof.
  intros Htif Hbands. split.
  - intros transform bounds row utm_x utm_y r c Hin Hpx Hdim.
    unfold loop_body. rewrite Hin. cbn [negb]. rewrite Hpx. cbn [Py.bind].
    rewrite Hdim, read_rgb_few_bands by exact Hbands. reflexivity.
  - unfold process_geotiff_and_gt.
    destruct (process_rows _ _ _ _ _ _) as [outcomes|e] eqn:Hrows;
      cbn [Py.bind]; [|reflexivity].
    f_equal. unfold process_rows, rasterio_open in Hrows.
    rewrite Htif in Hrows. cbn [Py.bind] in Hrows.
    apply bind_Ok_inv in Hrows as (gt_data & _ & Hrows).
    apply bind_Ok_inv in Hrows as (geotiff_crs & _ & Hrows).
    destruct gt_data as [gt_data|points|]; [| |discriminate].
    + unfold iterrows_loop in Hrows. apply for_each_Forall2 in Hrows.
      induction Hrows as [|row o gt_data outcomes Ho _ IH]; [reflexivity|].
      destruct o; simpl; try exact IH.
      exfalso. exact (loop_body_few_bands _ _ _ _ _ _ _ Hbands Ho).
    + exact (for_each_unlabelled_appends_nothing _ _ _
               (fun point => transformer_transform wgs84_crs geotiff_crs
                               (fst point) (snd point)) _ _ Hrows).
Qed.

Lemma loop_body_degenerate (dataset : Rasterio.dataset)
    (transform : Affine.t) (bounds : float * float * float * float)
    (date : string) (row : GT.row) (utm_x utm_y : float) :
  Affine.is_degenerate transform = true ->
  loop_body dataset transform bounds date row (utm_x, utm_y) =
  if within_bounds bounds utm_x utm_y then Raise TransformNotInvertibleError
  else Ok (OutOfBoundsUTM utm_x utm_y).
Proof.
  intros Hdeg. unfold loop_body, utm_to_pixel, Affine.invert.
  rewrite Hdeg. destruct (within_bounds bounds utm_x utm_y); reflexivity.
Qed.

(** With a degenerate adjusted transform (determinant zero) the
    extraction of a date raises [TransformNotInvertibleError] as soon
    as one ground-truth row passes the bounds check, and returns an
    empty table when none does. *)
Theorem degenerate_transform_extraction (dataset : Rasterio.dataset)
    (zoom_factor : float) (date geotiff_crs : string)
    (gt_data : list GT.row) :
  Affine.is_degenerate (adjusted_transform dataset zoom_factor) = true ->
  records_of transformer_transform dataset zoom_factor date geotiff_crs
    gt_data =
  if existsb (row_within_bounds transformer_transform dataset zoom_factor
                geotiff_crs) gt_data
  then Raise TransformNotInvertibleError
  else Ok [].
Proof.
  intros Hdeg. unfold records_of, iterrows_loop.
  induction gt_data as [|row gt_data IH]; [reflexivity|].
  cbn [for_each existsb]. unfold row_within_bounds at 1.
  fold (projected transformer_transform geotiff_crs row).
  destruct (projected transformer_transform geotiff_crs row) as [utm_x utm_y].
  rewrite loop_body_degenerate by exact Hdeg.
  destruct (within_bounds _ utm_x utm_y); cbn [Py.bind orb]; [reflexivity|].
  destruct (existsb _ gt_data).
  - destruct (for_each _ gt_data) as [outcomes|e]; cbn [Py.bind] in *;
      [discriminate | exact IH].
  - destruct (for_each _ gt_data) as [outcomes|e]; cbn [Py.bind] in *;
      [|discriminate].
    injection IH as IH. cbn [appended]. rewrite IH. reflexivity.
Qed.

Lemma loop_body_unlabelled_raises (dataset : Rasterio.dataset)
    (transform : Affine.t) (bounds : float * float * float * float)
    (utm : float * float) (e : exn) :
  loop_body_unlabelled dataset transform bounds utm = Raise e ->
  is_IndexError e = false.
Proof.
  destruct utm as [utm_x utm_y]. unfold loop_body_unlabelled.
  destruct (negb (within_bounds bounds utm_x utm_y)); [discriminate|].
  destruct (utm_to_pixel transform utm_x utm_y) as [[r c]|e'] eqn:Hpx;
    cbn [Py.bind].
  - destruct (within_dimensions dataset r c); [|discriminate].
    destruct (read_rgb dataset r c) as [[[red green] blue]|e'] eqn:Hrgb.
    + cbn. intros [= <-]. reflexivity.
    + rewrite (read_rgb_raises _ _ _ _ Hrgb). cbn. discriminate.
  - intros [= <-].
    apply utm_to_pixel_raises in Hpx as [->|[->| ->]]; reflexivity.
Qed.

Lemma process_geotiff_and_gt_raises (fs : gmap string file)
    (geotiff_file gt_csv_file date : string) (zoom_factor : float)
    (e : exn) :
  process_geotiff_and_gt transformer_transform fs
    geotiff_file gt_csv_file date zoom_factor = Raise e ->
  is_IndexError e = false.
Proof.
  unfold process_geotiff_and_gt, process_rows, rasterio_open, read_csv,
    Rasterio.crs_to_string.
  destruct (fs !! geotiff_file) as [[dataset| | |]|]; cbn [Py.bind];
    try (intros [= <-]; reflexivity).
  destruct (fs !! gt_csv_file) as [[|gt_data| |points]|]; cbn [Py.bind];
    try (intros [= <-]; reflexivity);
    (destruct (Rasterio.crs dataset) as [geotiff_crs|]; cbn [Py.bind];
     [|intros [= <-]; reflexivity]).
  - destruct (iterrows_loop _ _ _ _ _ _ _) as [outcomes|e'] eqn:Hloop;
      cbn [Py.bind]; [discriminate|].
    intros [= <-]. unfold iterrows_loop in Hloop.
    apply for_each_raises in Hloop as (row & _ & Hrow).
    apply loop_body_raises, utm_to_pixel_raises in Hrow as [->|[->| ->]];
      reflexivity.
  - intros [= <-]. reflexivity.
  - destruct (for_each _ points) as [outcomes|e'] eqn:Hloop;
      cbn [Py.bind]; [discriminate|].
    intros [= <-].
    apply for_each_raises in Hloop as (point & _ & Hpoint).
    exact (loop_body_unlabelled_raises _ _ _ _ _ Hpoint).
Qed.

(** The pipeline never fails with an [IndexError]: the failures of the
    sampling are caught in the loop, and no other step raises one. *)
Theorem pipeline_never_raises_IndexError (fs : gmap string file)
    (geotiff_dir gt_csv_dir : string) (dates : list string)
    (zoom_factor : float) (e : exn) :
  training_dataset transformer_transform os_path_join fs
    geotiff_dir gt_csv_dir dates zoom_factor = Raise e ->
  is_IndexError e = false.
Proof.
  unfold training_dataset, create_training_dataset.
  destruct (for_each _ dates) as [tables|e'] eqn:Hdates; cbn [Py.bind].
  - destruct tables as [|t tables]; cbn [pd_concat Py.bind];
      [intros [= <-]; reflexivity|].
    unfold clean, drop_zero_rgb.
    destruct (unify_labels (concat (t :: tables))); cbn [Py.bind];
      [intros [= <-]; reflexivity | discriminate].
  - intros [= <-]. apply for_each_raises in Hdates as (date & _ & Hdate).
    exact (process_geotiff_and_gt_raises _ _ _ _ _ _ Hdate).
Qed.

End ExtractorEdgeCases.

(* ================================================================== *)
(** ** Further properties of the assembler and of the script *)

Section ScriptProperties.

Variable transformer_transform :
  string -> string -> float -> float -> float * float.
Variable os_path_join : string -> string -> string.

(** The first date whose extraction raises aborts the assembly with
    that exception: no table is returned for the dates processed
    before it, and the script saves nothing. *)
Theorem failing_date_aborts_assembly (fs : gmap string file)
    (geotiff_dir gt_csv_dir : string) (zoom_factor : float)
    (before after : list string) (date : string)
    (tables : list (DataFrame Z)) (e : exn) :
  Forall2
    (fun date per_date =>
       process_date transformer_transform os_path_join fs
         geotiff_dir gt_csv_dir zoom_factor date = Ok per_date)
    before tables ->
  process_date transformer_transform os_path_join fs
    geotiff_dir gt_csv_dir zoom_factor date = Raise e ->
  create_training_dataset transformer_transform os_path_join fs
    geotiff_dir gt_csv_dir (before ++ date :: after) zoom_factor = Raise e /\
  training_dataset transformer_transform os_path_join fs
    geotiff_dir gt_csv_dir (before ++ date :: after) zoom_factor = Raise e.
Proof.
  intros Hbefore Hdate.
  assert (Hcreate :
    create_training_dataset transformer_transform os_path_join fs
      geotiff_dir gt_csv_dir (before ++ date :: after) zoom_factor = Raise e).
  { unfold create_training_dataset. rewrite for_each_app.
    apply for_each_Forall2 in Hbefore. rewrite Hbefore. cbn [Py.bind for_each].
    rewrite Hdate. reflexivity. }
  split; [exact Hcreate|].
  unfold training_dataset. rewrite Hcreate. reflexivity.
Qed.

(** When no ground-truth row of any date yields a record, the assembled
    table has no columns: the script does not save an empty table, it
    fails with [KeyError] at the first cleaning step. *)
Theorem no_record_raises_KeyError (fs : gmap string file)
    (geotiff_dir gt_csv_dir : string) (dates : list string)
    (zoom_factor : float) :
  dates <> [] ->
  Forall
    (fun date =>
       process_date transformer_transform os_path_join fs
         geotiff_dir gt_csv_dir zoom_factor date = Ok [])
    dates ->
  create_training_dataset transformer_transform os_path_join fs
    geotiff_dir gt_csv_dir dates zoom_factor = Ok [] /\
  training_dataset transformer_transform os_path_join fs
    geotiff_dir gt_csv_dir dates zoom_factor = Raise KeyError.
Proof.
  intros Hne Hempty.
  assert (Hrun :
    for_each (process_date transformer_transform os_path_join fs
                geotiff_dir gt_csv_dir zoom_factor) dates =
    Ok (map (fun _ => []) dates)).
  { induction Hempty as [|date dates Hd _ IH]; [reflexivity|].
    cbn [for_each]. rewrite Hd. cbn [Py.bind].
    destruct dates as [|date' dates].
    - reflexivity.
    - rewrite IH by discriminate. reflexivity. }
  assert (Hcreate :
    create_training_dataset transformer_transform os_path_join fs
      geotiff_dir gt_csv_dir dates zoom_factor = Ok []).
  { unfold create_training_dataset. rewrite Hrun. cbn [Py.bind].
    destruct dates as [|date dates]; [congruence|].
    cbn [map pd_concat]. f_equal. clear.
    cbn [concat app].
    replace (concat (map (fun _ => []) dates)) with (@nil (Sample.t Z));
      [reflexivity|].
    induction dates as [|d dates IH]; [reflexivity | exact IH]. }
  split; [exact Hcreate|].
  unfold training_dataset. rewrite Hcreate. reflexivity.
Qed.

End ScriptProperties.

(* ================================================================== *)
(** ** Binary64 arithmetic: the quotient of a number by itself *)

Module Binary64Quotient.

#[local] Open Scope Z_scope.

Lemma Zdigits2_le (m k : Z) : 0 < m -> m < 2 ^ k -> Zdigits2 m <= k.
Proof.
  intros Hm Hhi.
  destruct (Binary64.Zdigits2_bounds m Hm) as (Hd & Hlo & _).
  destruct (Z.le_gt_cases (Zdigits2 m) k) as [Hle|Hgt]; [exact Hle|].
  pose proof (Z.pow_le_mono_r 2 k (Zdigits2 m - 1)). lia.
Qed.

(** Rounding a mantissa of at least 53 digits below the overflow
    threshold gives a finite number. *)
Lemma binary_round_aux_finite (s : bool) (mx ex : Z) (lx : location) :
  0 < mx -> 53 <= Zdigits2 mx -> -1074 <= ex ->
  ex + (Zdigits2 mx - 53) + 1 <= 971 ->
  exists m e, binary_round_aux prec emax s mx ex lx = S754_finite s m e.
Proof.
  intros Hm Hd He Hmax. unfold binary_round_aux.
  destruct (Binary64.shr_fexp_normal mx ex lx Hm Hd He) as (Hm1 & He1 & Hr1).
  destruct (shr_fexp prec emax mx ex lx) as [mrs1 e1]. cbn [fst snd] in *.
  set (m2 := round_nearest_even (shr_m mrs1) (loc_of_shr_record mrs1)).
  assert (Hm2 : 2 ^ 52 <= m2 <= 2 ^ 53).
  { destruct (Binary64.round_nearest_even_cases (shr_m mrs1)
                (loc_of_shr_record mrs1)) as [H|H]; fold m2 in H; lia. }
  assert (Hd2 : 53 <= Zdigits2 m2) by (apply Binary64.Zdigits2_ge; lia).
  assert (Hd2' : Zdigits2 m2 <= 54).
  { apply Zdigits2_le; [lia|]. change (2 ^ 54) with (2 * 2 ^ 53). lia. }
  destruct (Binary64.shr_fexp_normal m2 e1 loc_Exact) as (Hm3 & He3 & Hr3);
    [lia | exact Hd2 | lia |].
  destruct (shr_fexp prec emax m2 e1 loc_Exact) as [mrs3 e3].
  cbn [fst snd] in *.
  destruct (shr_m mrs3) as [|m|m] eqn:Hshr; try lia.
  unfold emax, prec. destruct (Z.leb_spec e3 (1024 - 53)) as [Hle|Hgt]; [|lia].
  exists m, e3. reflexivity.
Qed.

(** A positive integer below 2^1023 converts to a finite number. *)
Lemma binary_round_int_finite (s : bool) (p : positive) :
  Zpos p < 2 ^ 1023 ->
  exists m e, binary_round prec emax s p 0 = S754_finite s m e.
Proof.
  intros Hp. unfold binary_round, shl_align, fexp, emin, prec, emax.
  assert (Hd : Zpos (digits2_pos p) <= 1023).
  { change (Zpos (digits2_pos p)) with (Zdigits2 (Zpos p)).
    apply Zdigits2_le; lia. }
  replace (Z.max (Zpos (digits2_pos p) + 0 - 53) (3 - 1024 - 53) - 0)
    with (Zpos (digits2_pos p) - 53) by lia.
  destruct (Zpos (digits2_pos p) - 53) as [|k|k] eqn:Hk.
  - apply binary_round_aux_finite; cbn [Zdigits2]; lia.
  - apply binary_round_aux_finite; cbn [Zdigits2]; try lia.
  - replace (Z.max (Zpos (digits2_pos p) + 0 - 53) (3 - 1024 - 53))
      with (Zpos (digits2_pos p) + 0 - 53) by lia.
    assert (Hdig : Zdigits2 (Zpos (Pos.iter xO p k)) = 53).
    { pose proof (Binary64.digits2_pos_bounds p) as [Hlo Hhi].
      apply Binary64.Zdigits2_unique; [lia|].
      rewrite Binary64.iter_xO.
      assert (H52 : 2 ^ 52 = 2 ^ (Zpos (digits2_pos p) - 1) * 2 ^ Zpos k).
      { rewrite <- Z.pow_add_r by lia. f_equal. lia. }
      assert (H53 : 2 ^ 53 = 2 ^ Zpos (digits2_pos p) * 2 ^ Zpos k).
      { rewrite <- Z.pow_add_r by lia. f_equal. lia. }
      replace (53 - 1) with 52 by lia. rewrite H52, H53.
      assert (0 < 2 ^ Zpos k) by (apply Z.pow_pos_nonneg; lia).
      split; [apply Z.mul_le_mono_nonneg_r | apply Z.mul_lt_mono_pos_r]; lia. }
    apply binary_round_aux_finite; rewrite ?Hdig; lia.
Qed.

End Binary64Quotient.

(** A finite non-zero number divided by itself is 1. *)
Lemma SFdiv_self (s : bool) (m : positive) (e : Z) :
  SF64div (S754_finite s m e) (S754_finite s m e) = Prim2SF 1.
Proof.
  unfold SF64div, SFdiv, SFdiv_core_binary.
  replace (Zdigits2 (Zpos m) + e - (Zdigits2 (Zpos m) + e)) with 0 by lia.
  replace (e - e) with 0 by lia.
  change (Z.min (fexp prec emax 0) 0) with (-53).
  change (0 - -53) with 53.
  rewrite Z.shiftl_mul_pow2 by lia.
  destruct (Z.div_eucl (Zpos m * 2 ^ 53) (Zpos m)) as [q r] eqn:Hdiv.
  assert (Hq : q = 2 ^ 53).
  { transitivity (Zpos m * 2 ^ 53 / Zpos m).
    - unfold Z.div. rewrite Hdiv. reflexivity.
    - rewrite Z.mul_comm. apply Z.div_mul. lia. }
  assert (Hr : r = 0).
  { transitivity ((Zpos m * 2 ^ 53) mod Zpos m).
    - unfold Z.modulo. rewrite Hdiv. reflexivity.
    - rewrite Z.mul_comm. apply Z.mod_mul. lia. }
  subst q r.
  assert (Hloc : new_location (Zpos m) 0 = loc_Exact).
  { unfold new_location. destruct (Z.even (Zpos m)); reflexivity. }
  rewrite Hloc. destruct s; vm_compute; reflexivity.
Qed.

Lemma float_of_int_div_self (n : Z) :
  0 < n < 2 ^ 1023 -> (float_of_int n / float_of_int n)%float = 1%float.
Proof.
  intros [Hpos Hlt]. apply Prim2SF_inj.
  rewrite FloatAxioms.div_spec, Binary64.Prim2SF_float_of_int.
  destruct n as [|p|p]; try lia. cbn [binary_normalize].
  destruct (Binary64Quotient.binary_round_int_finite false p Hlt)
    as (m & e & ->).
  apply SFdiv_self.
Qed.

Lemma pixel_col_never_missing (df : DataFrame float) :
  pixel_col_isna_sum df = 0.
Proof.
  unfold pixel_col_isna_sum.
  induction df as [|record df IH]; [reflexivity|].
  rewrite filter_cons_False by (cbn; discriminate). exact IH.
Qed.

(** The debugging statistics carry no information: the count of missing
    pixel columns is always zero, so the total equals the number of
    saved records, the reported out-of-bounds count is 0, and for every
    table with at least one record the reported percentage of valid
    points is exactly 100. *)
Theorem statistics_are_vacuous (df : DataFrame float) :
  df <> [] ->
  Z.of_nat (length df) < 2 ^ 63 ->
  total_points df = valid_points df /\
  out_of_bounds_points df = 0 /\
  valid_percentage df = 100%float.
Proof.
  intros Hne Hlen.
  assert (Htotal : total_points df = valid_points df).
  { unfold total_points, valid_points. rewrite pixel_col_never_missing. lia. }
  split; [exact Htotal|]. split.
  - unfold out_of_bounds_points. lia.
  - unfold valid_percentage. rewrite Htotal, float_of_int_div_self.
    + vm_compute. reflexivity.
    + unfold valid_points. destruct df; [congruence|]. cbn [length].
      split; [lia|].
      eapply Z.lt_trans; [exact Hlen|]. reflexivity.
Qed.

(* ================================================================== *)
(** ** A NaN zoom factor *)

(** With a NaN zoom factor the left edge of the adjusted bounds is
    NaN. *)
Lemma adjusted_bounds_nan_zoom (dataset : Rasterio.dataset) (zoom : float) :
  is_nan zoom = true ->
  exists b0 b1 b2 b3,
    adjusted_bounds dataset zoom = (b0, b1, b2, b3) /\ is_nan b0 = true.
Proof.
  intros Hnan.
  unfold adjusted_bounds, adjusted_transform, adjust_transform_for_zoom.
  assert (Hne : (zoom =? 1)%float = false).
  { rewrite FloatAxioms.eqb_spec, (is_nan_Prim2SF zoom Hnan). reflexivity. }
  rewrite Hne. unfold Rasterio.window_bounds, Affine.apply.
  do 4 eexists. split; [reflexivity|].
  cbn [Affine.mul Affine.scale Affine.a Affine.b Affine.c].
  apply add_nan_l, add_nan_l, mul_nan_r, add_nan_l, mul_nan_r, Hnan.
Qed.

(** A NaN zoom factor raises nothing: every ground-truth row is skipped
    as out of bounds and the table of the date is empty. *)
Theorem nan_zoom_extracts_nothing
    (transformer_transform : string -> string -> float -> float -> float * float)
    (fs : gmap string file) (geotiff_file gt_csv_file date : string)
    (zoom : float) (dataset : Rasterio.dataset) (geotiff_crs : string)
    (gt_data : list GT.row) :
  fs !! geotiff_file = Some (GeoTIFF dataset) ->
  fs !! gt_csv_file = Some (GroundTruthCsv gt_data) ->
  Rasterio.crs dataset = Some geotiff_crs ->
  is_nan zoom = true ->
  process_rows transformer_transform fs geotiff_file gt_csv_file date zoom =
    Ok (map (fun row =>
               let '(utm_x, utm_y) :=
                 projected transformer_transform geotiff_crs row in
               OutOfBoundsUTM utm_x utm_y) gt_data) /\
  process_geotiff_and_gt transformer_transform fs
    geotiff_file gt_csv_file date zoom = Ok [].
Proof.
  intros Htif Hcsv Hcrs Hnan.
  destruct (adjusted_bounds_nan_zoom dataset zoom Hnan)
    as (b0 & b1 & b2 & b3 & Hbounds & Hb0).
  assert (Hrows :
    process_rows transformer_transform fs geotiff_file gt_csv_file date zoom =
    Ok (map (fun row =>
               let '(utm_x, utm_y) :=
                 projected transformer_transform geotiff_crs row in
               OutOfBoundsUTM utm_x utm_y) gt_data)).
  { unfold process_rows, rasterio_open, read_csv, Rasterio.crs_to_string.
    rewrite Htif. cbn [Py.bind]. rewrite Hcsv. cbn [Py.bind].
    rewrite Hcrs. cbn [Py.bind].
    fold (adjusted_transform dataset zoom). fold (adjusted_bounds dataset zoom).
    rewrite Hbounds. unfold iterrows_loop. clear Hcsv.
    induction gt_data as [|row gt_data IH]; [reflexivity|].
    cbn [for_each map]. rewrite IH. unfold projected.
    destruct (transformer_transform _ _ _ _) as [utm_x utm_y].
    unfold loop_body. rewrite (within_bounds_nan_left _ _ _ _ _ _ Hb0).
    reflexivity. }
  split; [exact Hrows|].
  unfold process_geotiff_and_gt. rewrite Hrows. cbn [Py.bind]. f_equal.
  clear. induction gt_data as [|row gt_data IH]; [reflexivity|].
  cbn [map]. destruct (projected _ _ _). exact IH.
Qed.

(* ================================================================== *)
(** ** Bounds that no point satisfies *)

(** No number lies between [lo] and [hi] when [hi < lo]. *)
Lemma leb_leb_ltb (lo x hi : float) :
  (lo <=? x)%float = true -> (x <=? hi)%float = true ->
  (hi <? lo)%float = false.
Proof.
  rewrite !FloatAxioms.leb_spec, FloatAxioms.ltb_spec.
  unfold SFleb, SFltb.
  destruct (Prim2SF lo) as [[]|[]|  |[] mlo elo],
           (Prim2SF x) as [[]|[]|  |[] mx ex],
           (Prim2SF hi) as [[]|[]|  |[] mhi ehi];
    cbn [SFcompare]; try reflexivity; try discriminate.
  all: change (Pos.compare_cont Eq mlo mx) with (Pos.compare mlo mx).
  all: change (Pos.compare_cont Eq mx mhi) with (Pos.compare mx mhi).
  all: change (Pos.compare_cont Eq mhi mlo) with (Pos.compare mhi mlo).
  all: destruct (Z.compare_spec elo ex), (Pos.compare_spec mlo mx),
         (Z.compare_spec ex ehi), (Pos.compare_spec mx mhi);
       cbn; intros; try discriminate;
       destruct (Z.compare_spec ehi elo), (Pos.compare_spec mhi mlo);
       cbn; try reflexivity; exfalso; lia.
Qed.

Lemma within_bounds_inverted (b0 b1 b2 b3 utm_x utm_y : float) :
  (b2 <? b0)%float = true \/ (b3 <? b1)%float = true ->
  within_bounds (b0, b1, b2, b3) utm_x utm_y = false.
Proof.
  intros Hinv. unfold within_bounds.
  destruct (b0 <=? utm_x)%float eqn:H0, (utm_x <=? b2)%float eqn:H2,
           (b1 <=? utm_y)%float eqn:H1, (utm_y <=? b3)%float eqn:H3;
    try reflexivity.
  exfalso. destruct Hinv as [H|H].
  - rewrite (leb_leb_ltb b0 utm_x b2 H0 H2) in H. discriminate.
  - rewrite (leb_leb_ltb b1 utm_y b3 H1 H3) in H. discriminate.
Qed.

Section CompositionProperties.

Variable transformer_transform :
  string -> string -> float -> float -> float * float.
Variable os_path_join : string -> string -> string.

(** When the adjusted bounds are inverted (the right edge below the left
    one, or the top edge below the bottom one, as for a raster whose
    rows run from south to north), no ground-truth row passes the
    bounds check: the table of the date is empty. *)
Theorem inverted_bounds_extract_nothing (dataset : Rasterio.dataset)
    (zoom_factor : float) (date geotiff_crs : string)
    (gt_data : list GT.row) (b0 b1 b2 b3 : float) :
  adjusted_bounds dataset zoom_factor = (b0, b1, b2, b3) ->
  (b2 <? b0)%float = true \/ (b3 <? b1)%float = true ->
  records_of transformer_transform dataset zoom_factor date geotiff_crs
    gt_data = Ok [].
Proof.
  intros Hbounds Hinv. unfold records_of, iterrows_loop. rewrite Hbounds.
  induction gt_data as [|row gt_data IH]; [reflexivity|].
  cbn [for_each].
  destruct (transformer_transform _ _ _ _) as [utm_x utm_y].
  unfold loop_body at 1.
  rewrite (within_bounds_inverted _ _ _ _ _ _ Hinv). cbn [negb Py.bind].
  destruct (for_each _ gt_data) as [outcomes|e]; cbn [Py.bind] in *;
    [|discriminate].
  exact IH.
Qed.

(** The extraction works row by row: the table extracted from a
    ground-truth file that holds the rows of two tables one after the
    other is the table of the first followed by the table of the
    second, and an exception of the first part comes first. *)
Theorem process_geotiff_and_gt_app (fs : gmap string file)
    (geotiff_file gt_csv_file date : string) (zoom_factor : float)
    (rows1 rows2 : list GT.row) :
  process_geotiff_and_gt transformer_transform
    (<[gt_csv_file := GroundTruthCsv (rows1 ++ rows2)]> fs)
    geotiff_file gt_csv_file date zoom_factor =
  (table1 <-
     process_geotiff_and_gt transformer_transform
       (<[gt_csv_file := GroundTruthCsv rows1]> fs)
       geotiff_file gt_csv_file date zoom_factor ;;
   table2 <-
     process_geotiff_and_gt transformer_transform
       (<[gt_csv_file := GroundTruthCsv rows2]> fs)
       geotiff_file gt_csv_file date zoom_factor ;;
   Ok (table1 ++ table2)).
Proof.
  unfold process_geotiff_and_gt, process_rows, rasterio_open, read_csv.
  destruct (decide (geotiff_file = gt_csv_file)) as [->|Hne].
  - rewrite !lookup_insert_eq. reflexivity.
  - rewrite !lookup_insert_eq, !lookup_insert_ne by congruence.
    destruct (fs !! geotiff_file) as [[dataset| | |]|]; try reflexivity.
    cbn [Py.bind].
    destruct (Rasterio.crs_to_string dataset) as [geotiff_crs|e];
      cbn [Py.bind]; [|reflexivity].
    unfold iterrows_loop. rewrite for_each_app.
    destruct (for_each _ rows1) as [os1|e]; cbn [Py.bind]; [|reflexivity].
    destruct (for_each _ rows2) as [os2|e]; cbn [Py.bind]; [|reflexivity].
    rewrite appended_app. reflexivity.
Qed.

End CompositionProperties.

(** A ground-truth table that has the coordinate columns and lacks a
    label column never yields a record: the table of the date is empty
    whenever the extraction returns, and on a raster with its three
    bands the first row that passes the bounds check and the dimension
    check ends the extraction with [KeyError], which the loop does not
    catch. *)
Theorem missing_label_column_raises_KeyError
    (transformer_transform : string -> string -> float -> float -> float * float)
    (fs : gmap string file) (geotiff_file gt_csv_file date : string)
    (zoom_factor : float) (dataset : Rasterio.dataset) (geotiff_crs : string)
    (points : list (float * float)) :
  fs !! geotiff_file = Some (GeoTIFF dataset) ->
  fs !! gt_csv_file = Some (CoordinatesCsv points) ->
  Rasterio.crs dataset = Some geotiff_crs ->
  (forall table,
     process_geotiff_and_gt transformer_transform fs
       geotiff_file gt_csv_file date zoom_factor = Ok table ->
     table = []) /\
  (forall before point after utm_x utm_y pixel_row pixel_col,
     points = before ++ point :: after ->
     Rasterio.well_formed dataset ->
     3 <= Z.of_nat (length (Rasterio.bands dataset)) ->
     Forall
       (fun earlier =>
          exists o,
            loop_body_unlabelled dataset
              (adjusted_transform dataset zoom_factor)
              (adjusted_bounds dataset zoom_factor)
              (transformer_transform wgs84_crs geotiff_crs
                 (fst earlier) (snd earlier)) = Ok o)
       before ->
     transformer_transform wgs84_crs geotiff_crs (fst point) (snd point) =
       (utm_x, utm_y) ->
     within_bounds (adjusted_bounds dataset zoom_factor) utm_x utm_y = true ->
     utm_to_pixel (adjusted_transform dataset zoom_factor) utm_x utm_y =
       Ok (pixel_row, pixel_col) ->
     within_dimensions dataset pixel_row pixel_col = true ->
     process_geotiff_and_gt transformer_transform fs
       geotiff_file gt_csv_file date zoom_factor = Raise KeyError).
Proof.
  intros Htif Hcsv Hcrs. split.
  - intros table H.
    apply process_geotiff_and_gt_Ok_inv in H
      as (dataset' & geotiff_crs' & _ & _ &
          [(gt_data & Hcsv' & _) | (points' & _ & ->)]);
      [congruence | reflexivity].
  - intros before point after utm_x utm_y pixel_row pixel_col
      -> Hwf Hbands Hbefore Hutm Hin Hpx Hdim.
    unfold process_geotiff_and_gt, process_rows, rasterio_open, read_csv,
      Rasterio.crs_to_string.
    rewrite Htif. cbn [Py.bind]. rewrite Hcsv. cbn [Py.bind].
    rewrite Hcrs. cbn [Py.bind].
    fold (adjusted_transform dataset zoom_factor).
    fold (adjusted_bounds dataset zoom_factor).
    rewrite for_each_app.
    assert (Hrun : exists outcomes,
      for_each
        (fun point0 =>
           loop_body_unlabelled dataset
             (adjusted_transform dataset zoom_factor)
             (adjusted_bounds dataset zoom_factor)
             (transformer_transform wgs84_crs geotiff_crs
                (fst point0) (snd point0))) before = Ok outcomes).
    { clear -Hbefore.
      induction Hbefore as [|earlier before [o Ho] _ [outcomes IH]];
        [exists []; reflexivity|].
      exists (o :: outcomes). cbn [for_each]. rewrite Ho. cbn [Py.bind].
      rewrite IH. reflexivity. }
    destruct Hrun as [outcomes ->]. cbn [Py.bind for_each].
    rewrite Hutm. unfold loop_body_unlabelled at 1.
    rewrite Hin. cbn [negb]. rewrite Hpx. cbn [Py.bind]. rewrite Hdim.
    destruct (read_rgb_succeeds dataset pixel_row pixel_col Hwf Hbands Hdim)
      as (red & green & blue & ->).
    reflexivity.
Qed.

(** Cleaning the concatenation of two tables that both have rows gives
    the cleaned first table followed by the cleaned second one. *)
Theorem clean_app (assembled1 assembled2 : DataFrame Z) :
  assembled1 <> [] -> assembled2 <> [] ->
  clean (assembled1 ++ assembled2) =
  (cleaned1 <- clean assembled1 ;;
   cleaned2 <- clean assembled2 ;;
   Ok (cleaned1 ++ cleaned2)).
Proof.
  intros H1 H2.
  rewrite (clean_nonempty assembled1 H1), (clean_nonempty assembled2 H2).
  rewrite clean_nonempty by (destruct assembled1; [congruence | discriminate]).
  cbn [Py.bind]. unfold dropna_plant_health, normalize_rgb.
  rewrite !filter_app, map_app. reflexivity.
Qed.

(* ================================================================== *)
(** ** The further properties on concrete inputs *)

Lemma extracted_records_are_sound_scenario :
  Forall
    (fun record =>
       exists row,
         row ∈ Scenario.gt_table /\
         sampled_from Scenario.raster (adjusted_transform Scenario.raster 1)
           (adjusted_bounds Scenario.raster 1) "d1" row
           (projected Scenario.same_crs "EPSG:32611" row) record)
    (Scenario.table "d1").
Proof.
  apply (extracted_records_are_sound Scenario.same_crs Scenario.fs1
           "tif/d1.tif" "gt/d1.csv" "d1" 1 Scenario.raster "EPSG:32611"
           Scenario.gt_table (Scenario.table "d1"));
    vm_compute; reflexivity.
Defined.

Lemma extracted_records_in_row_order_scenario :
  sublist (map record_labels (Scenario.table "d1"))
    (map row_labels Scenario.gt_table) /\
  (length (Scenario.table "d1") <= length Scenario.gt_table)%nat.
Proof.
  apply (extracted_records_in_row_order Scenario.same_crs Scenario.fs1
           "tif/d1.tif" "gt/d1.csv" "d1" 1);
    vm_compute; reflexivity.
Defined.

(** The point (10, 5) on the right edge of the 10x10 raster passes the
    bounds check and maps to the pixel row 10. *)
Lemma pixel_outside_dimensions_is_skipped_edge :
  loop_body Scenario.raster (adjusted_transform Scenario.raster 1)
    (adjusted_bounds Scenario.raster 1) "d1"
    (Scenario.gt_row 10 5 "stressed") (10, 5)%float =
    Ok (OutOfBoundsPixel 10 5) /\
  process_geotiff_and_gt Scenario.same_crs Edge.fs_edge
    "tif/d1.tif" "gt/d1.csv" "d1" 1 =
  (records_before <-
     records_of Scenario.same_crs Scenario.raster 1 "d1" "EPSG:32611"
       [Scenario.gt_row 5.4 5.4 "healthy"] ;;
   records_after <-
     records_of Scenario.same_crs Scenario.raster 1 "d1" "EPSG:32611" [] ;;
   Ok (records_before ++ records_after)).
Proof.
  apply (pixel_outside_dimensions_is_skipped Scenario.same_crs Edge.fs_edge
           "tif/d1.tif" "gt/d1.csv" "d1" 1 Scenario.raster "EPSG:32611"
           [Scenario.gt_row 5.4 5.4 "healthy"] []
           (Scenario.gt_row 10 5 "stressed") 10 5 10 5);
    vm_compute; reflexivity.
Defined.

Lemma nan_coordinate_is_skipped_scenario :
  loop_body Scenario.raster (adjusted_transform Scenario.raster 1)
    (adjusted_bounds Scenario.raster 1) "d1"
    (Scenario.gt_row nan 5 "healthy") (nan, 5)%float =
    Ok (OutOfBoundsUTM nan 5) /\
  records_of Scenario.same_crs Scenario.raster 1 "d1" "EPSG:32611"
    ([Scenario.gt_row 5.4 5.4 "healthy"] ++
     Scenario.gt_row nan 5 "healthy" :: [Scenario.gt_row 2 7 "healthy"]) =
  (records_before <-
     records_of Scenario.same_crs Scenario.raster 1 "d1" "EPSG:32611"
       [Scenario.gt_row 5.4 5.4 "healthy"] ;;
   records_after <-
     records_of Scenario.same_crs Scenario.raster 1 "d1" "EPSG:32611"
       [Scenario.gt_row 2 7 "healthy"] ;;
   Ok (records_before ++ records_after)).
Proof.
  apply (nan_coordinate_is_skipped Scenario.same_crs Scenario.raster 1 "d1"
           "EPSG:32611" [Scenario.gt_row 5.4 5.4 "healthy"]
           [Scenario.gt_row 2 7 "healthy"] (Scenario.gt_row nan 5 "healthy")
           nan 5); [reflexivity | left; reflexivity].
Defined.

(** The single-band raster: the three rows give no record. *)
Lemma few_bands_extract_nothing_grayscale :
  process_geotiff_and_gt Scenario.same_crs Edge.fs_grayscale
    "tif/d1.tif" "gt/d1.csv" "d1" 1 = Ok [] /\
  process_rows Scenario.same_crs Edge.fs_grayscale
    "tif/d1.tif" "gt/d1.csv" "d1" 1 =
    Ok [IndexErrorAt 5 5; OutOfBoundsUTM (-1) (-1); IndexErrorAt 2 3].
Proof.
  destruct (few_bands_extract_nothing Scenario.same_crs Edge.fs_grayscale
              "tif/d1.tif" "gt/d1.csv" "d1" 1 Edge.grayscale)
    as [_ Htable]; [vm_compute; reflexivity | cbn; lia |].
  split; [rewrite Htable|]; vm_compute; reflexivity.
Defined.

(** The collapsed raster: the row at (5, 5) is inside its bounds. *)
Lemma degenerate_transform_extraction_collapsed :
  records_of Scenario.same_crs Edge.collapsed 1 "d1" "EPSG:32611"
    [Scenario.gt_row 2 7 "healthy"] = Ok [] /\
  records_of Scenario.same_crs Edge.collapsed 1 "d1" "EPSG:32611"
    [Scenario.gt_row 2 7 "healthy"; Scenario.gt_row 5 5 "healthy"] =
    Raise TransformNotInvertibleError.
Proof.
  split.
  - rewrite (degenerate_transform_extraction Scenario.same_crs Edge.collapsed
               1 "d1" "EPSG:32611" [Scenario.gt_row 2 7 "healthy"]);
      vm_compute; reflexivity.
  - rewrite (degenerate_transform_extraction Scenario.same_crs Edge.collapsed
               1 "d1" "EPSG:32611"
               [Scenario.gt_row 2 7 "healthy"; Scenario.gt_row 5 5 "healthy"]);
      vm_compute; reflexivity.
Defined.

(** A missing raster is a [RasterioIOError]. *)
Lemma pipeline_never_raises_IndexError_scenario :
  training_dataset Scenario.same_crs Scenario.posixpath_join
    Scenario.fs1 "tif" "gt" ["d1"; "d2"] 1 = Raise RasterioIOError /\
  is_IndexError RasterioIOError = false.
Proof.
  split; [vm_compute; reflexivity|].
  apply (pipeline_never_raises_IndexError Scenario.same_crs
           Scenario.posixpath_join Scenario.fs1 "tif" "gt" ["d1"; "d2"] 1).
  vm_compute. reflexivity.
Defined.

(** The second date has a raster but no ground-truth table. *)
Lemma failing_date_aborts_assembly_scenario :
  create_training_dataset Scenario.same_crs Scenario.posixpath_join
    Edge.fs_missing "tif" "gt" (["d1"] ++ "d2" :: ["d1"]) 1 =
    Raise ReadCsvError /\
  training_dataset Scenario.same_crs Scenario.posixpath_join
    Edge.fs_missing "tif" "gt" (["d1"] ++ "d2" :: ["d1"]) 1 =
    Raise ReadCsvError.
Proof.
  apply (failing_date_aborts_assembly Scenario.same_crs
           Scenario.posixpath_join Edge.fs_missing "tif" "gt" 1
           ["d1"] ["d1"] "d2" [Scenario.table "d1"] ReadCsvError).
  - repeat constructor; vm_compute; reflexivity.
  - vm_compute. reflexivity.
Defined.

(** The only ground-truth row of the date is outside the raster. *)
Lemma no_record_raises_KeyError_scenario :
  create_training_dataset Scenario.same_crs Scenario.posixpath_join
    Edge.fs_outside "tif" "gt" ["d1"] 1 = Ok [] /\
  training_dataset Scenario.same_crs Scenario.posixpath_join
    Edge.fs_outside "tif" "gt" ["d1"] 1 = Raise KeyError.
Proof.
  apply (no_record_raises_KeyError Scenario.same_crs Scenario.posixpath_join
           Edge.fs_outside "tif" "gt" ["d1"] 1); [discriminate|].
  repeat constructor; vm_compute; reflexivity.
Defined.

Lemma statistics_are_vacuous_scenario :
  total_points Edge.cleaned = valid_points Edge.cleaned /\
  out_of_bounds_points Edge.cleaned = 0 /\
  valid_percentage Edge.cleaned = 100%float.
Proof.
  apply (statistics_are_vacuous Edge.cleaned); [discriminate | reflexivity].
Defined.

Lemma nan_zoom_extracts_nothing_scenario :
  process_rows Scenario.same_crs Scenario.fs1 "tif/d1.tif" "gt/d1.csv" "d1"
    nan =
    Ok [OutOfBoundsUTM 5.4 5.4; OutOfBoundsUTM (-1) (-1); OutOfBoundsUTM 2 7] /\
  process_geotiff_and_gt Scenario.same_crs Scenario.fs1
    "tif/d1.tif" "gt/d1.csv" "d1" nan = Ok [].
Proof.
  apply (nan_zoom_extracts_nothing Scenario.same_crs Scenario.fs1
           "tif/d1.tif" "gt/d1.csv" "d1" nan Scenario.raster "EPSG:32611"
           Scenario.gt_table); vm_compute; reflexivity.
Defined.

(** The south-up raster has the bounds (0, 10, 10, 0). *)
Lemma inverted_bounds_extract_nothing_south_up :
  adjusted_bounds Edge.south_up 1 = (0, 10, 10, 0)%float /\
  records_of Scenario.same_crs Edge.south_up 1 "d1" "EPSG:32611"
    Scenario.gt_table = Ok [].
Proof.
  split; [vm_compute; reflexivity|].
  apply (inverted_bounds_extract_nothing Scenario.same_crs Edge.south_up 1
           "d1" "EPSG:32611" Scenario.gt_table 0 10 10 0);
    [vm_compute; reflexivity | right; vm_compute; reflexivity].
Defined.

(** The 10x10 raster with the points (-1, -1), (5.4, 5.4) and (2, 7):
    the first is out of bounds, the second reaches the record. *)
Lemma missing_label_column_raises_KeyError_scenario :
  process_rows Scenario.same_crs
    (<["gt/d1.csv" := CoordinatesCsv [(-1, -1)%float]]> Edge.fs_unlabelled)
    "tif/d1.tif" "gt/d1.csv" "d1" 1 = Ok [OutOfBoundsUTM (-1) (-1)] /\
  process_geotiff_and_gt Scenario.same_crs Edge.fs_unlabelled
    "tif/d1.tif" "gt/d1.csv" "d1" 1 = Raise KeyError.
Proof.
  split; [vm_compute; reflexivity|].
  refine (proj2 (missing_label_column_raises_KeyError Scenario.same_crs
                   Edge.fs_unlabelled "tif/d1.tif" "gt/d1.csv" "d1" 1
                   Scenario.raster "EPSG:32611"
                   [(-1, -1); (5.4, 5.4); (2, 7)]%float _ _ _)
            [(-1, -1)%float] (5.4, 5.4)%float [(2, 7)%float]
            5.4%float 5.4%float 5 5 _ _ _ _ _ _ _ _);
    try (vm_compute; reflexivity); try (cbn; lia);
    try (repeat constructor; fail).
  constructor; [|constructor].
  exists (OutOfBoundsUTM (-1) (-1)). vm_compute. reflexivity.
Defined.

Lemma clean_app_scenario :
  clean (Scenario.assembled ++ Scenario.assembled) =
  (cleaned1 <- clean Scenario.assembled ;;
   cleaned2 <- clean Scenario.assembled ;;
   Ok (cleaned1 ++ cleaned2)).
Proof.
  apply (clean_app Scenario.assembled Scenario.assembled); discriminate.
Defined.
